(** * FitBodyTrack: calorie derivation, streaks, macro split, weight forecast
      and the ownership / duplicate checks of the REST controllers.

    Shallow embedding of the Express/Mongoose backend
    (controllers/workoutController.js, controllers/progressController.js,
    controllers/nutritionController.js, the analytics controller, the
    Progress and Nutrition schemas) and of the frontend helper
    [nutritionUtils.calculateMacroPercentages].

    Conventions of the embedding.
    - A JavaScript number is read as an exact rational ([Qc]) extended with
      [NaN] and the two infinities.  Rounding to binary64 and the sign of
      zero are outside the model: every arithmetic result below is the exact
      one.
    - A [Date] is its time value, an integer number of milliseconds; the
      server's local time zone is a fixed offset from UTC.
    - A collection of the document store is the list of its documents in
      insertion order; handlers thread it explicitly. *)

From Stdlib Require Import ZArith QArith Qcanon Qround Ascii String List Sorted Lia Lqa.
From stdpp Require Import base decidable option list strings pretty numbers gmap.
From Equations Require Import Equations.

Local Open Scope Z_scope.

(** ** JavaScript values and numbers *)

Module JS.

Inductive number : Type :=
| NaN
| PInf
| NInf
| Fin (q : Qc).

Definition num (z : Z) : number := Fin (Qc_of_Z z).

(** A decimal literal of the source, e.g. [lit 9.8]. *)
Definition lit (q : Q) : number := Fin (Q2Qc q).

Definition isFinite (x : number) : bool :=
  match x with Fin _ => true | _ => false end.

(** Sign of a number: [Gt] positive, [Lt] negative, [Eq] zero. *)
Definition sgn (x : number) : option comparison :=
  match x with
  | NaN => None
  | PInf => Some Gt
  | NInf => Some Lt
  | Fin q => Some (q ?= 0)%Qc
  end.

Definition neg (x : number) : number :=
  match x with
  | NaN => NaN
  | PInf => NInf
  | NInf => PInf
  | Fin q => Fin (- q)%Qc
  end.

Definition add (x y : number) : number :=
  match x, y with
  | NaN, _ | _, NaN => NaN
  | PInf, NInf | NInf, PInf => NaN
  | PInf, _ | _, PInf => PInf
  | NInf, _ | _, NInf => NInf
  | Fin a, Fin b => Fin (a + b)%Qc
  end.

Definition sub (x y : number) : number := add x (neg y).

(** The infinity a product or quotient of two signs gives; a zero factor
    makes it [NaN]. *)
Definition signed_inf (s t : comparison) : number :=
  match s, t with
  | Eq, _ | _, Eq => NaN
  | Lt, Lt | Gt, Gt => PInf
  | _, _ => NInf
  end.

Definition mul (x y : number) : number :=
  match x, y with
  | Fin a, Fin b => Fin (a * b)%Qc
  | _, _ =>
      match sgn x, sgn y with
      | Some s, Some t => signed_inf s t
      | _, _ => NaN
      end
  end.

Definition div (x y : number) : number :=
  match x, y with
  | NaN, _ | _, NaN => NaN
  | Fin a, Fin b =>
      if decide (b = 0%Qc) then signed_inf (a ?= 0)%Qc Gt
      else Fin (a / b)%Qc
  | Fin _, _ => Fin 0%Qc
  | _, Fin b =>
      match sgn x with
      | Some s => signed_inf s (match (b ?= 0)%Qc with Lt => Lt | _ => Gt end)
      | None => NaN
      end
  | _, _ => NaN
  end.

(** [x < y], [x <= y], [x >= y] and [x === y] on numbers: false whenever an
    operand is [NaN]. *)
Definition lt (x y : number) : bool :=
  match x, y with
  | NaN, _ | _, NaN => false
  | _, NInf | PInf, _ => false
  | NInf, _ | _, PInf => true
  | Fin a, Fin b => bool_decide (a < b)%Qc
  end.

Definition strictEq (x y : number) : bool :=
  match x, y with
  | PInf, PInf | NInf, NInf => true
  | Fin a, Fin b => bool_decide (a = b)
  | _, _ => false
  end.

Definition le (x y : number) : bool := lt x y || strictEq x y.
Definition ge (x y : number) : bool := le y x.

(** [Math.round]: the integer nearest to [x], ties towards +infinity. *)
Definition Math_round (x : number) : number :=
  match x with
  | Fin q => num (Qfloor (q + Q2Qc (1 # 2))%Qc)
  | _ => x
  end.

Definition Math_abs (x : number) : number :=
  match x with
  | NaN => NaN
  | PInf | NInf => PInf
  | Fin q => if bool_decide (q < 0)%Qc then Fin (- q)%Qc else Fin q
  end.

Definition Math_max (x y : number) : number :=
  match x, y with
  | NaN, _ | _, NaN => NaN
  | _, _ => if lt x y then y else x
  end.

(** The values a numeric field of a request body or of a document takes
    ([undefined] when the field is absent), and the members an object
    literal inherits from [Object.prototype] (built-in functions, and the
    prototype object itself under [__proto__]). *)
Inductive value : Type :=
| VUndefined
| VNull
| VNum (n : number)
| VBuiltin (name : string).

Definition ToBoolean (v : value) : bool :=
  match v with
  | VUndefined | VNull => false
  | VNum NaN => false
  | VNum (Fin q) => negb (bool_decide (q = 0%Qc))
  | VNum _ => true
  | VBuiltin _ => true
  end.

Definition ToNumber (v : value) : number :=
  match v with
  | VUndefined => NaN
  | VNull => num 0
  | VNum n => n
  | VBuiltin _ => NaN
  end.

(** Global [isNaN(v)]. *)
Definition isNaN (v : value) : bool :=
  match ToNumber v with NaN => true | _ => false end.

(** [a || b] *)
Definition or_else (a b : value) : value := if ToBoolean a then a else b.

(** [String.prototype.toLowerCase] on the ASCII letters. *)
Definition lower_ascii (c : ascii) : ascii :=
  let n := nat_of_ascii c in
  if (Nat.leb 65 n && Nat.leb n 90)%bool then ascii_of_nat (n + 32) else c.

Fixpoint toLowerCase (s : string) : string :=
  match s with
  | EmptyString => EmptyString
  | String c s' => String (lower_ascii c) (toLowerCase s')
  end.

(** Property names every object literal inherits from [Object.prototype]. *)
Definition Object_prototype : list string :=
  [ "constructor"; "__proto__"; "hasOwnProperty"; "isPrototypeOf";
    "propertyIsEnumerable"; "toLocaleString"; "toString"; "valueOf";
    "__defineGetter__"; "__defineSetter__"; "__lookupGetter__";
    "__lookupSetter__" ]%string.

(** [obj[key]] for an object literal whose own properties are numbers. *)
Definition get (obj : gmap string number) (key : string) : value :=
  match obj !! key with
  | Some n => VNum n
  | None => if bool_decide (key ∈ Object_prototype) then VBuiltin key else VUndefined
  end.

(** [Number.prototype.toFixed(fd)]: the decimal numeral of the integer [n]
    nearest to [x * 10^fd] (the larger one on a tie), with [fd] digits after
    the point; a negative [x] is printed as ["-"] followed by the numeral of
    [-x].  The exponent form JavaScript switches to from [10^21] on is not
    modelled. *)
Fixpoint zeros (k : nat) : string :=
  match k with O => EmptyString | S k' => String "0" (zeros k') end.

Definition padStart (width : nat) (s : string) : string :=
  zeros (width - String.length s) +:+ s.

Definition toFixed (fd : nat) (x : number) : string :=
  match x with
  | NaN => "NaN"
  | PInf => "Infinity"
  | NInf => "-Infinity"
  | Fin q =>
      let negative := bool_decide (q < 0)%Qc in
      let a := if negative then (- q)%Qc else q in
      let n := Qfloor (a * Qc_of_Z (10 ^ Z.of_nat fd) + Q2Qc (1 # 2))%Qc in
      let whole := pretty (Z.to_N (n / 10 ^ Z.of_nat fd)) in
      let frac := padStart fd (pretty (Z.to_N (n mod 10 ^ Z.of_nat fd))) in
      (if negative then "-" else "") +:+ whole +:+
      (match fd with O => "" | _ => "." +:+ frac end)
  end%string.

(** JSON documents a handler sends; a [Date] is kept as its time value. *)
#[local] Unset Elimination Schemes.
Inductive json : Type :=
| JNull
| JBool (b : bool)
| JNum (n : number)
| JStr (s : string)
| JDate (t : Z)
| JArr (items : list json)
| JObj (fields : list (string * json)).
#[local] Set Elimination Schemes.

Definition json_of_value (v : value) : option json :=
  match v with
  | VUndefined => None
  | VNull => Some JNull
  | VNum n => Some (JNum n)
  | VBuiltin _ => None
  end.

(** [o.name] of a JSON object; [None] when the property is absent. *)
Definition field (name : string) (j : json) : option json :=
  match j with
  | JObj fields => snd <$> List.find (λ kv, bool_decide (kv.1 = name)) fields
  | _ => None
  end.

(** [res.status(code).json(body)] *)
Record response : Type := Response { status : nat; body : json }.

Definition message (code : nat) (msg : string) : response :=
  Response code (JObj [("message", JStr msg)]%string).

End JS.

Import JS.

(** ** Dates and the request environment *)

Module Date.

Definition msPerDay : Z := 86400000.

(** What a request reads from outside the collections: the clock
    ([Date.now()], [new Date()]), the offset of local time from UTC in
    milliseconds, and the ObjectId the driver gives the next document. *)
Record env : Type := Env { now : Z; tzOffset : Z; nextId : string }.

(** [new Date(d.getFullYear(), d.getMonth(), d.getDate())] and
    [d.setHours(0, 0, 0, 0)]: the local midnight that starts the day of [t]. *)
Definition startOfDay (e : env) (t : Z) : Z :=
  t - (t + tzOffset e) mod msPerDay.

(** [d.setHours(23, 59, 59, 999)] *)
Definition endOfDay (e : env) (t : Z) : Z :=
  startOfDay e t + (msPerDay - 1).

(** [d.setDate(d.getDate() + n)] *)
Definition addDays (t : Z) (n : Z) : Z := t + n * msPerDay.

End Date.

Import Date.

(** ** models/Workout.js, the Progress schema and the Nutrition schema *)

Module Models.

(** Documents expose their [date]; the analytics helpers only read that. *)
Class Dated (D : Type) : Type := date_of : D → Z.

Record workout : Type := Workout {
  w_id : string;
  w_userId : string;
  w_type : string;
  w_duration : value;
  w_weight : value;
  w_calories : value;
  w_date : Z }.

Record progress : Type := Progress {
  p_id : string;
  p_userId : string;
  p_weight : number;
  p_date : Z }.

Record nutrition : Type := Nutrition {
  n_id : string;
  n_userId : string;
  n_food : string;
  n_calories : number;
  n_protein : number;
  n_carbs : number;
  n_fat : number;
  n_date : Z }.

#[global] Instance instant_dated : Dated Z := λ t, t.
#[global] Instance workout_dated : Dated workout := w_date.
#[global] Instance progress_dated : Dated progress := p_date.
#[global] Instance nutrition_dated : Dated nutrition := n_date.

(** An id is the hexadecimal form of an ObjectId.  A request whose id is
    not one makes the lookup throw, which the handlers answer 500 from
    their [catch] block, as they do when the database fails; neither is part
    of this model. *)

(** [Model.findById(id)] *)
Definition findById {D : Type} (id_of : D → string) (id : string) (store : list D) : option D :=
  List.find (λ d, bool_decide (id_of d = id)) store.

(** [Model.findByIdAndDelete(id)] *)
Definition findByIdAndDelete {D : Type} (id_of : D → string) (id : string) (store : list D) : list D :=
  List.filter (λ d, negb (bool_decide (id_of d = id))) store.

(** [Model.findOne({ userId }).sort({ date: -1 })]: the document with the
    latest date, the first such in the collection. *)
Definition later {D : Type} `{Dated D} (best : option D) (d : D) : option D :=
  match best with
  | None => Some d
  | Some b => if bool_decide (date_of b < date_of d) then Some d else Some b
  end.

Definition findLatest {D : Type} `{Dated D} (user_of : D → string) (userId : string)
    (store : list D) : option D :=
  foldl later None (List.filter (λ d, bool_decide (user_of d = userId)) store).

(** [.sort({ date: 1 })]: stable insertion by ascending date. *)
Fixpoint insertByDate {D : Type} `{Dated D} (d : D) (l : list D) : list D :=
  match l with
  | [] => [d]
  | x :: l' => if bool_decide (date_of d ≤ date_of x) then d :: x :: l'
               else x :: insertByDate d l'
  end.

Definition sortByDate {D : Type} `{Dated D} (l : list D) : list D :=
  foldr insertByDate [] l.

(** Mongoose reports the paths that fail validation in one message. *)
Fixpoint joinErrors (errs : list (string * string)) : string :=
  match errs with
  | [] => ""
  | [(path, msg)] => path +:+ ": " +:+ msg
  | (path, msg) :: rest => path +:+ ": " +:+ msg +:+ ", " +:+ joinErrors rest
  end.

Definition validationMessage (model : string) (errs : list (string * string)) : string :=
  model +:+ " validation failed: " +:+ joinErrors errs.

(** A [Number] path with [min] and [max]: the first validator that fails. *)
Definition checkRange (path : string) (x : number) (lo hi : Z) (tooLow tooHigh : string)
    : list (string * string) :=
  if negb (ge x (num lo)) then [(path, tooLow)]
  else if negb (le x (num hi)) then [(path, tooHigh)]
  else [].

(** *** Progress schema *)

Definition progress_validate (p : progress) : list (string * string) :=
  checkRange "weight" (p_weight p) 20 500
    "Weight must be at least 20 kg" "Weight must be less than 500 kg".

(** [progressSchema.pre('save')] of a new document: the entry of the same
    user whose date lies in the local day of [this.date], if any. *)
Definition existingEntry (e : env) (this : progress) (store : list progress) : option progress :=
  let startOfDay := startOfDay e (p_date this) in
  let endOfDay := endOfDay e (p_date this) in
  List.find (λ q, bool_decide (p_userId q = p_userId this) &&
                  bool_decide (startOfDay ≤ p_date q) &&
                  bool_decide (p_date q ≤ endOfDay)) store.

(** [Progress.create(doc)]: validation, then the pre-save hook, then the
    insertion; an error carries its message. *)
Definition progress_create (e : env) (this : progress) (store : list progress)
    : string + list progress :=
  match progress_validate this with
  | (_ :: _) as errs => inl (validationMessage "Progress" errs)
  | [] =>
      match existingEntry e this store with
      | Some _ => inl "Progress entry already exists for this date"%string
      | None => inr (store ++ [this])
      end
  end.

(** The [bmi] virtual returns [null]. *)
Definition progress_toJSON (p : progress) : json :=
  JObj [("_id", JStr (p_id p)); ("userId", JStr (p_userId p));
        ("weight", JNum (p_weight p)); ("date", JDate (p_date p));
        ("bmi", JNull); ("id", JStr (p_id p))]%string.

(** *** Nutrition schema *)

(** The [totalMacros] virtual. *)
Definition totalMacros (this : nutrition) : number :=
  add (add (n_protein this) (n_carbs this)) (n_fat this).

(** The [macroPercentages] virtual. *)
Definition macroPercentages (this : nutrition) : number * number * number :=
  let total := totalMacros this in
  if strictEq total (num 0) then (num 0, num 0, num 0)
  else (Math_round (mul (div (n_protein this) total) (num 100)),
        Math_round (mul (div (n_carbs this) total) (num 100)),
        Math_round (mul (div (n_fat this) total) (num 100))).

Definition nutrition_validate (n : nutrition) : list (string * string) :=
  (if bool_decide (200 < String.length (n_food n))%nat
   then [("food", "Food name cannot exceed 200 characters")] else [])%string ++
  checkRange "calories" (n_calories n) 0 10000
    "Calories cannot be negative" "Calories seem unrealistically high" ++
  checkRange "protein" (n_protein n) 0 1000
    "Protein cannot be negative" "Protein amount seems unrealistic" ++
  checkRange "carbs" (n_carbs n) 0 1000
    "Carbs cannot be negative" "Carbs amount seems unrealistic" ++
  checkRange "fat" (n_fat n) 0 1000
    "Fat cannot be negative" "Fat amount seems unrealistic".

(** [Nutrition.create(doc)]; the pre-save hook of this schema only logs a
    warning and always continues. *)
Definition nutrition_create (this : nutrition) (store : list nutrition)
    : string + list nutrition :=
  match nutrition_validate this with
  | (_ :: _) as errs => inl (validationMessage "Nutrition" errs)
  | [] => inr (store ++ [this])
  end.

Definition nutrition_toJSON (n : nutrition) : json :=
  let '(protein, carbs, fat) := macroPercentages n in
  JObj [("_id", JStr (n_id n)); ("userId", JStr (n_userId n));
        ("food", JStr (n_food n)); ("calories", JNum (n_calories n));
        ("protein", JNum (n_protein n)); ("carbs", JNum (n_carbs n));
        ("fat", JNum (n_fat n)); ("date", JDate (n_date n));
        ("serving_size", JStr "1 serving"); ("source", JStr "manual");
        ("totalMacros", JNum (totalMacros n));
        ("macroPercentages",
         JObj [("protein", JNum protein); ("carbs", JNum carbs); ("fat", JNum fat)]);
        ("id", JStr (n_id n))]%string.

(** *** Workout schema *)

Definition optional (name : string) (v : value) : list (string * json) :=
  match json_of_value v with Some j => [(name, j)] | None => [] end.

Definition workout_toJSON (w : workout) : json :=
  JObj ([("_id", JStr (w_id w)); ("userId", JStr (w_userId w));
         ("type", JStr (w_type w))]%string ++
        optional "duration" (w_duration w) ++ optional "weight" (w_weight w) ++
        optional "calories" (w_calories w) ++ [("date", JDate (w_date w))]%string).

End Models.

Import Models.

(** ** controllers/workoutController.js *)

Module WorkoutController.

(** [MET_VALUES] *)
Definition MET_VALUES : gmap string number :=
  {[ "running" := lit 9.8;
     "walking" := lit 3.8;
     "cycling" := lit 7.5;
     "pushups" := lit 8.0 ]}%string.

(** [calculateCalories(type, duration, weight)] *)
Definition calculateCalories (type : string) (duration weight : value) : value :=
  let metValue := get MET_VALUES (toLowerCase type) in
  if negb (ToBoolean metValue) || negb (ToBoolean weight) || negb (ToBoolean duration)
  then VNull
  else VNum (Math_round (mul (mul (ToNumber metValue) (ToNumber weight))
                             (div (ToNumber duration) (num 60)))).

(** [getLatestWeight(userId)] *)
Definition getLatestWeight (progresses : list progress) (userId : string) : value :=
  match findLatest p_userId userId progresses with
  | Some latestProgress => VNum (p_weight latestProgress)
  | None => VNull
  end.

(** The body of a PUT request: the schema paths it may carry. *)
Record updateBody : Type := UpdateBody {
  b_type : option string;
  b_duration : value;
  b_weight : value;
  b_calories : value;
  b_date : option Z;
  b_userId : option string }.

Definition truthyString (s : option string) : bool :=
  match s with Some (String _ _) => true | _ => false end.

(** [Workout.findByIdAndUpdate(id, updateData, { new: true })]: the paths
    present in [updateData] replace the document's. *)
Definition applyUpdate (updateData : updateBody) (w : workout) : workout :=
  {| w_id := w_id w;
     w_userId := default (w_userId w) (b_userId updateData);
     w_type := default (w_type w) (b_type updateData);
     w_duration := match b_duration updateData with VUndefined => w_duration w | v => v end;
     w_weight := match b_weight updateData with VUndefined => w_weight w | v => v end;
     w_calories := match b_calories updateData with VUndefined => w_calories w | v => v end;
     w_date := default (w_date w) (b_date updateData) |}.

Definition findByIdAndUpdate (id : string) (updateData : updateBody) (store : list workout)
    : list workout :=
  (λ w, if bool_decide (w_id w = id) then applyUpdate updateData w else w) <$> store.

(** [updateWorkout(req, res)] with [req.user] (the caller's id, when the
    authentication middleware set one), [req.params.id] and [req.body]. *)
Definition updateWorkout (progresses : list progress) (store : list workout)
    (user : option string) (id : string) (body : updateBody)
    : response * list workout :=
  match findById w_id id store with
  | None => (message 400 "Workout not found", store)
  | Some workout =>
      match user with
      | None => (message 401 "User not found", store)
      | Some userId =>
          if negb (bool_decide (w_userId workout = userId))
          then (message 401 "User not authorized", store)
          else
            let updateData :=
              if (truthyString (b_type body) || ToBoolean (b_duration body)
                  || ToBoolean (b_weight body)) && negb (ToBoolean (b_calories body))
              then
                let finalType :=
                  if truthyString (b_type body) then default (w_type workout) (b_type body)
                  else w_type workout in
                let finalDuration := or_else (b_duration body) (w_duration workout) in
                let finalWeight := or_else (b_weight body) (w_weight workout) in
                let fetched := negb (ToBoolean finalWeight) in
                let finalWeight :=
                  if fetched then getLatestWeight progresses userId else finalWeight in
                let updateData :=
                  if fetched && ToBoolean finalWeight
                  then {| b_type := b_type body; b_duration := b_duration body;
                          b_weight := finalWeight; b_calories := b_calories body;
                          b_date := b_date body; b_userId := b_userId body |}
                  else body in
                let calculatedCalories := calculateCalories finalType finalDuration finalWeight in
                if ToBoolean calculatedCalories
                then {| b_type := b_type updateData; b_duration := b_duration updateData;
                        b_weight := b_weight updateData; b_calories := calculatedCalories;
                        b_date := b_date updateData; b_userId := b_userId updateData |}
                else updateData
              else body in
            let store' := findByIdAndUpdate id updateData store in
            match findById w_id id store' with
            | Some updatedWorkout => (Response 200 (workout_toJSON updatedWorkout), store')
            | None => (Response 200 JNull, store')
            end
      end
  end.

(** [deleteWorkout(req, res)] *)
Definition deleteWorkout (store : list workout) (user : option string) (id : string)
    : response * list workout :=
  match findById w_id id store with
  | None => (message 400 "Workout not found", store)
  | Some workout =>
      match user with
      | None => (message 401 "User not found", store)
      | Some userId =>
          if negb (bool_decide (w_userId workout = userId))
          then (message 401 "User not authorized", store)
          else (Response 200 (JObj [("id", JStr id)]%string),
                findByIdAndDelete w_id id store)
      end
  end.

End WorkoutController.

Import WorkoutController.

(** ** controllers/progressController.js *)

Module ProgressController.

(** What V8 reports for [req.user.id] when [req.user] is undefined. *)
Definition noUser : string := "Cannot read properties of undefined (reading 'id')".

(** [addProgress(req, res)] with [req.body.weight] and [req.body.date]. *)
Definition addProgress (e : env) (store : list progress) (user : option string)
    (weight : value) (date : option Z) : response * list progress :=
  if negb (ToBoolean weight) then (message 400 "Please add weight", store)
  else
    match user with
    | None => (message 500 noUser, store)
    | Some userId =>
        let doc := {| p_id := nextId e; p_userId := userId;
                      p_weight := ToNumber weight;
                      p_date := default (now e) date |} in
        match progress_create e doc store with
        | inl error => (message 500 error, store)
        | inr store' => (Response 201 (progress_toJSON doc), store')
        end
    end.

(** [deleteProgress(req, res)] *)
Definition deleteProgress (store : list progress) (user : option string) (id : string)
    : response * list progress :=
  match findById p_id id store with
  | None => (message 400 "Progress entry not found", store)
  | Some progress =>
      match user with
      | None => (message 401 "User not found", store)
      | Some userId =>
          if negb (bool_decide (p_userId progress = userId))
          then (message 401 "User not authorized", store)
          else (Response 200 (JObj [("id", JStr id)]%string),
                findByIdAndDelete p_id id store)
      end
  end.

End ProgressController.

Import ProgressController.

(** ** controllers/nutritionController.js *)

Module NutritionController.

(** [String.prototype.trim] on the ASCII white space. *)
Definition isSpace (c : ascii) : bool :=
  let n := nat_of_ascii c in
  (Nat.eqb n 32 || (Nat.leb 9 n && Nat.leb n 13))%bool.

Fixpoint trimStart (s : string) : string :=
  match s with
  | EmptyString => EmptyString
  | String c s' => if isSpace c then trimStart s' else s
  end.

Fixpoint trimEnd (s : string) : string :=
  match s with
  | EmptyString => EmptyString
  | String c s' =>
      match trimEnd s' with
      | EmptyString => if isSpace c then EmptyString else String c EmptyString
      | t => String c t
      end
  end.

Definition trim (s : string) : string := trimEnd (trimStart s).

(** The fields [addNutrition] reads from [req.body]. *)
Record nutritionBody : Type := NutritionBody {
  nb_food : option string;
  nb_calories : value;
  nb_date : option Z;
  nb_protein : value;
  nb_carbs : value;
  nb_fat : value }.

(** [isNaN(x) ? 0 : Math.max(0, Number(x))] *)
Definition validatedMacro (x : value) : number :=
  if isNaN x then num 0 else Math_max (num 0) (ToNumber x).

(** [addNutrition(req, res)] *)
Definition addNutrition (e : env) (store : list nutrition) (user : option string)
    (body : nutritionBody) : response * list nutrition :=
  let calories := nb_calories body in
  match nb_food body with
  | None => (message 400 "Food name is required", store)
  | Some food =>
      if negb (truthyString (Some food)) || negb (truthyString (Some (trim food)))
      then (message 400 "Food name is required", store)
      else if negb (ToBoolean calories) || isNaN calories || lt (ToNumber calories) (num 0)
      then (message 400 "Valid calories value is required", store)
      else
        let validatedProtein := validatedMacro (nb_protein body) in
        let validatedCarbs := validatedMacro (nb_carbs body) in
        let validatedFat := validatedMacro (nb_fat body) in
        match user with
        | None => (message 500 noUser, store)
        | Some userId =>
            let doc := {| n_id := nextId e; n_userId := userId;
                          n_food := trim food;
                          n_calories := ToNumber calories;
                          n_protein := validatedProtein;
                          n_carbs := validatedCarbs;
                          n_fat := validatedFat;
                          n_date := default (now e) (nb_date body) |} in
            match nutrition_create doc store with
            | inl error => (message 500 error, store)
            | inr store' => (Response 201 (nutrition_toJSON doc), store')
            end
        end
  end.

(** [deleteNutrition(req, res)] *)
Definition deleteNutrition (store : list nutrition) (user : option string) (id : string)
    : response * list nutrition :=
  match findById n_id id store with
  | None => (message 404 "Nutrition entry not found", store)
  | Some nutrition =>
      match user with
      | None => (message 401 "User not found", store)
      | Some userId =>
          if negb (bool_decide (n_userId nutrition = userId))
          then (message 401 "User not authorized", store)
          else (Response 200 (JObj [("id", JStr id)]%string),
                findByIdAndDelete n_id id store)
      end
  end.

End NutritionController.

Import NutritionController.

(** ** The frontend's [nutritionUtils] *)

Module NutritionUtils.



End NutritionUtils.

(** ** The analytics controller *)

Module AnalyticsController.

(** The keys of [dateMap] that are not after [currentDate]: what is left
    for the backward walk of [currentStreak]. *)
Definition daysUpTo {D : Type} (dateMap : gmap Z (list D)) (currentDate : Z) : nat :=
  size (filter (λ k, k ≤ currentDate) (dom dateMap)).

Definition inspect {A : Type} (a : A) : {b : A | a = b} := exist _ a eq_refl.

(** The [while (true)] loop of [currentStreak]. *)
Equations? streakLoop {D : Type} (dateMap : gmap Z (list D)) (currentDate : Z)
    (streak : nat) : nat by wf (daysUpTo dateMap currentDate) Peano.lt :=
streakLoop dateMap currentDate streak with inspect (dateMap !! currentDate) := {
  | exist _ (Some _) _ => streakLoop dateMap (addDays currentDate (-1)) (S streak)
  | exist _ None _ => streak }.
Proof.
  unfold daysUpTo, addDays, msPerDay. apply subset_size. split.
  - intros k. rewrite !elem_of_filter. intros [? ?]. split; [lia | done].
  - intros Hsub. specialize (Hsub currentDate). rewrite !elem_of_filter in Hsub.
    destruct Hsub as [? _]; [split; [lia | apply elem_of_dom; eauto] | lia].
Qed.

(** The [docs.forEach] that fills [dateMap]. *)
Definition groupStep {D : Type} `{Dated D} (e : env) (dateMap : gmap Z (list D)) (doc : D)
    : gmap Z (list D) :=
  let dateKey := startOfDay e (date_of doc) in
  let dateMap :=
    match dateMap !! dateKey with
    | None => <[dateKey := []]> dateMap
    | Some _ => dateMap
    end in
  alter (λ l, l ++ [doc]) dateKey dateMap.

(** [currentStreak(docs)] *)
Definition currentStreak {D : Type} `{Dated D} (e : env) (docs : list D) : nat :=
  match docs with
  | [] => 0%nat
  | _ =>
      let dateMap := foldl (groupStep e) ∅ docs in
      streakLoop dateMap (startOfDay e (now e)) 0
  end.

(** The [$group] stage with [_id: null]: one group when a document matched,
    none otherwise. *)
Record macroTotals : Type := MacroTotals {
  totalProtein : number; totalCarbs : number; totalFat : number }.

Definition sum (xs : list number) : number := foldl add (num 0) xs.

Definition groupMacros (matched : list nutrition) : list macroTotals :=
  match matched with
  | [] => []
  | _ => [ {| totalProtein := sum (n_protein <$> matched);
              totalCarbs := sum (n_carbs <$> matched);
              totalFat := sum (n_fat <$> matched) |} ]
  end.

Definition macrosJSON (protein carbs fat : number) : json :=
  JArr [ JObj [("name", JStr "Protein"); ("value", JNum protein)];
         JObj [("name", JStr "Carbs"); ("value", JNum carbs)];
         JObj [("name", JStr "Fat"); ("value", JNum fat)] ]%string.

(** The percentages [getMacrosData] sends for the result of the aggregation. *)
Definition macrosResult (macrosData : list macroTotals) : number * number * number :=
  match macrosData with
  | [] => (num 0, num 0, num 0)
  | m :: _ =>
      if strictEq (add (add (totalProtein m) (totalCarbs m)) (totalFat m)) (num 0)
      then (num 0, num 0, num 0)
      else
        let total := add (add (totalProtein m) (totalCarbs m)) (totalFat m) in
        (Math_round (mul (div (totalProtein m) total) (num 100)),
         Math_round (mul (div (totalCarbs m) total) (num 100)),
         Math_round (mul (div (totalFat m) total) (num 100)))
  end.

(** [getMacrosData(req, res)] for the authenticated user [userId]. *)
Definition getMacrosData (e : env) (store : list nutrition) (userId : string) : response :=
  let weekAgo := addDays (now e) (-7) in
  let macrosData :=
    groupMacros (List.filter (λ n, bool_decide (n_userId n = userId) &&
                                   bool_decide (weekAgo ≤ n_date n)) store) in
  let '(protein, carbs, fat) := macrosResult macrosData in
  Response 200 (macrosJSON protein carbs fat).

(** The accumulators of the regression loop of [getForecast]. *)
Record sums : Type := Sums { sumX : number; sumY : number; sumXY : number; sumX2 : number }.

Definition accumulate (s : sums) (index : nat) (entry : progress) : sums :=
  let x := num (Z.of_nat index) in
  let y := p_weight entry in
  {| sumX := add (sumX s) x;
     sumY := add (sumY s) y;
     sumXY := add (sumXY s) (mul x y);
     sumX2 := add (sumX2 s) (mul x x) |}.

(** [array.forEach((entry, index) => ...)] threading the accumulators. *)
Fixpoint forEach {A St : Type} (f : St → nat → A → St) (index : nat) (l : list A) (s : St) : St :=
  match l with
  | [] => s
  | entry :: l' => forEach f (S index) l' (f s index entry)
  end.

Record trend : Type := Trend {
  slope : number;
  currentWeight : value;
  weeklyChange : number;
  monthlyChange : number }.

(** The regression of [getForecast], from the loop to [monthlyChange]. *)
Definition regression (weightData : list progress) : trend :=
  let n := num (Z.of_nat (length weightData)) in
  let s := forEach accumulate 0 weightData (Sums (num 0) (num 0) (num 0) (num 0)) in
  let slope := div (sub (mul n (sumXY s)) (mul (sumX s) (sumY s)))
                   (sub (mul n (sumX2 s)) (mul (sumX s) (sumX s))) in
  {| slope := slope;
     currentWeight := match last weightData with
                      | Some entry => VNum (p_weight entry)
                      | None => VUndefined
                      end;
     weeklyChange := mul slope (num 7);
     monthlyChange := mul slope (num 30) |}.

Definition forecastMessage (t : trend) : string :=
  if lt (Math_abs (weeklyChange t)) (lit 0.1) then "Your weight is staying stable"
  else if lt (num 0) (weeklyChange t)
  then "At this rate, you'll gain " +:+ toFixed 1 (Math_abs (monthlyChange t)) +:+ "kg in 1 month"
  else "At this rate, you'll lose " +:+ toFixed 1 (Math_abs (monthlyChange t)) +:+ "kg in 1 month".

(** The weight entries of the last 30 days, oldest first. *)
Definition weightWindow (e : env) (store : list progress) (userId : string) : list progress :=
  let monthAgo := addDays (now e) (-30) in
  sortByDate (List.filter (λ p, bool_decide (p_userId p = userId) &&
                                bool_decide (monthAgo ≤ p_date p)) store).

(** [getForecast(req, res)] for the authenticated user [userId]. *)
Definition getForecast (e : env) (store : list progress) (userId : string) : response :=
  let weightData := weightWindow e store userId in
  if bool_decide (length weightData < 2)%nat
  then Response 200 (JObj [("prediction", JNull);
                           ("message", JStr "Need at least 2 weight entries to generate forecast")]%string)
  else
    let t := regression weightData in
    Response 200 (JObj ([("currentWeight",
                          default JNull (json_of_value (currentWeight t)));
                         ("weeklyTrend", JStr (toFixed 2 (weeklyChange t)));
                         ("monthlyTrend", JStr (toFixed 2 (monthlyChange t)));
                         ("message", JStr (forecastMessage t));
                         ("dataPoints", JNum (num (Z.of_nat (length weightData))))]%string)).

End AnalyticsController.

Import AnalyticsController.

(** ** The schemas, continued: sorting, [models/Workout.js], statics and methods *)

Module Schema.

(** [.sort({ date: -1 })]: stable insertion by descending date. *)
Fixpoint insertByDateDesc {D : Type} `{Dated D} (d : D) (l : list D) : list D :=
  match l with
  | [] => [d]
  | x :: l' => if bool_decide (date_of x ≤ date_of d) then d :: x :: l'
               else x :: insertByDateDesc d l'
  end.

Definition sortByDateDesc {D : Type} `{Dated D} (l : list D) : list D :=
  foldr insertByDateDesc [] l.

(** [Model.find({ userId }).sort({ date: -1 })] *)
Definition findByUser {D : Type} `{Dated D} (user_of : D → string) (userId : string)
    (store : list D) : list D :=
  sortByDateDesc (List.filter (λ d, bool_decide (user_of d = userId)) store).

(** *** Workout schema *)

Definition quote : string := String "034"%char EmptyString.

(** The message of a failed cast of [NaN] to [Number]. *)
Definition castMessage (path : string) : string :=
  "Cast to Number failed for value " +:+ quote +:+ "NaN" +:+ quote +:+
  " (type number) at path " +:+ quote +:+ path +:+ quote.

(** The default message of a [min] validator; [show] is [Number::toString],
    whose digits depend on the binary64 value and which is therefore a
    parameter. *)
Definition minMessage (show : number → string) (path : string) (x : number) (lo : Z) : string :=
  "Path `" +:+ path +:+ "` (" +:+ show x +:+
  ") is less than minimum allowed value (" +:+ pretty lo +:+ ").".

(** A [Number] path with [min]: absent values pass, [NaN] fails the cast. *)
Definition checkMin (show : number → string) (path : string) (v : value) (lo : Z)
    : list (string * string) :=
  match v with
  | VUndefined | VNull => []
  | _ =>
      match ToNumber v with
      | NaN => [(path, castMessage path)]
      | x => if negb (ge x (num lo)) then [(path, minMessage show path x lo)] else []
      end
  end.

Definition workout_validate (show : number → string) (w : workout) : list (string * string) :=
  (match w_type w with
   | EmptyString => [("type", "Please specify workout type")]
   | _ => []
   end)%string ++
  (match w_duration w with
   | VUndefined | VNull => [("duration", "Please specify duration in minutes")]%string
   | v => checkMin show "duration" v 1
   end) ++
  checkMin show "weight" (w_weight w) 1 ++
  checkMin show "calories" (w_calories w) 1.

(** [Workout.create(doc)] *)
Definition workout_create (show : number → string) (this : workout) (store : list workout)
    : string + list workout :=
  match workout_validate show this with
  | (_ :: _) as errs => inl (validationMessage "Workout" errs)
  | [] => inr (store ++ [this])
  end.

(** *** Progress statics *)

(** [progressSchema.statics.getLatestEntry(userId)] *)
Definition getLatestEntry (store : list progress) (userId : string) : option progress :=
  findLatest p_userId userId store.


(** *** Nutrition statics and methods *)

Record summary : Type := Summary {
  s_calories : number; s_protein : number; s_carbs : number; s_fat : number;
  s_entries : nat }.

(** The entries of [userId] from the instant [date] to the end of its
    local day: [{ $gte: startDate, $lte: endDate }]. *)
Definition ofDay (e : env) (userId : string) (date : Z) (store : list nutrition)
    : list nutrition :=
  let startDate := date in
  let endDate := endOfDay e date in
  List.filter (λ n, bool_decide (n_userId n = userId) &&
                    bool_decide (startDate ≤ n_date n) &&
                    bool_decide (n_date n ≤ endDate)) store.

(** [nutritionSchema.statics.getDailySummary(userId, date)], [date] being
    the instant [new Date(date)] denotes. *)
Definition getDailySummary (e : env) (store : list nutrition) (userId : string) (date : Z)
    : summary :=
  match ofDay e userId date store with
  | [] => Summary (num 0) (num 0) (num 0) (num 0) 0
  | matched =>
      {| s_calories := foldl add (num 0) (n_calories <$> matched);
         s_protein := foldl add (num 0) (n_protein <$> matched);
         s_carbs := foldl add (num 0) (n_carbs <$> matched);
         s_fat := foldl add (num 0) (n_fat <$> matched);
         s_entries := length matched |}
  end.

(** [nutritionSchema.methods.getCalorieBreakdown()], as
    [(protein, carbs, fat, total)]. *)
Definition getCalorieBreakdown (this : nutrition) : number * number * number * number :=
  (mul (n_protein this) (num 4), mul (n_carbs this) (num 4), mul (n_fat this) (num 9),
   add (add (mul (n_protein this) (num 4)) (mul (n_carbs this) (num 4)))
       (mul (n_fat this) (num 9))).

End Schema.

Import Schema.

(** ** controllers/workoutController.js, continued: [setWorkout], [getWorkouts] *)

Module Workouts.

(** [getWorkouts(req, res)] *)
Definition getWorkouts (store : list workout) (user : option string) : response :=
  match user with
  | None => message 500 noUser
  | Some userId => Response 200 (JArr (workout_toJSON <$> findByUser w_userId userId store))
  end.

Definition noWeightData : response :=
  Response 400
    (JObj [("message", JStr "Please add your weight in the Progress section for automatic calorie calculation, or enter calories manually");
           ("type", JStr "NO_WEIGHT_DATA")]%string).

(** [setWorkout(req, res)]; of [req.body] it reads [type], [duration],
    [weight], [calories] and [date]. *)
Definition setWorkout (show : number → string) (e : env) (progresses : list progress)
    (store : list workout) (user : option string) (body : updateBody)
    : response * list workout :=
  let duration := b_duration body in
  let weight := b_weight body in
  let calories := b_calories body in
  if negb (truthyString (b_type body)) || negb (ToBoolean duration)
  then (message 400 "Please add type and duration", store)
  else
    let type := default EmptyString (b_type body) in
    let derived : response + value * value :=
      if negb (ToBoolean calories) then
        let found : response + value :=
          if negb (ToBoolean weight) then
            match user with
            | None => inl (message 500 noUser)
            | Some userId =>
                let finalWeight := getLatestWeight progresses userId in
                if negb (ToBoolean finalWeight) then inl noWeightData else inr finalWeight
            end
          else inr weight in
        match found with
        | inl failure => inl failure
        | inr finalWeight =>
            let calculatedCalories := calculateCalories type duration finalWeight in
            if ToBoolean calculatedCalories then inr (finalWeight, calculatedCalories)
            else inl (message 400 "Cannot auto-calculate calories for this workout type. Please enter calories manually.")
        end
      else inr (weight, calories) in
    match derived with
    | inl failure => (failure, store)
    | inr (finalWeight, finalCalories) =>
        if negb (ToBoolean finalCalories)
        then (message 400 "Please provide calories or ensure you have weight data for automatic calculation", store)
        else
          match user with
          | None => (message 500 noUser, store)
          | Some userId =>
              let doc := {| w_id := nextId e; w_userId := userId; w_type := trim type;
                            w_duration := duration; w_weight := finalWeight;
                            w_calories := finalCalories;
                            w_date := default (now e) (b_date body) |} in
              match workout_create show doc store with
              | inl error => (message 500 error, store)
              | inr store' => (Response 201 (workout_toJSON doc), store')
              end
          end
    end.

End Workouts.

Import Workouts.

(** ** controllers/progressController.js, continued: [getProgress] *)

Module ProgressLog.

(** [getProgress(req, res)] *)
Definition getProgress (store : list progress) (user : option string) : response :=
  match user with
  | None => message 500 noUser
  | Some userId => Response 200 (JArr (progress_toJSON <$> findByUser p_userId userId store))
  end.

End ProgressLog.

Import ProgressLog.

(** ** controllers/nutritionController.js, continued: [getNutrition],
       [getDailySummary], [searchFood] *)

Module NutritionLog.

(** [getNutrition(req, res)]; [date] is the instant [new Date(req.query.date)]
    denotes, when the query has a date. *)
Definition getNutrition (e : env) (store : list nutrition) (user : option string)
    (date : option Z) : response :=
  match user with
  | None => message 500 noUser
  | Some userId =>
      let matched :=
        match date with
        | Some startDate => ofDay e userId startDate store
        | None => List.filter (λ n, bool_decide (n_userId n = userId)) store
        end in
      Response 200 (JArr (nutrition_toJSON <$> sortByDateDesc matched))
  end.

(** [x || 0] *)
Definition orZero (x : number) : number := if ToBoolean (VNum x) then x else num 0.

(** The [reduce] of [getDailySummary]. *)
Definition addEntry (totals : summary) (item : nutrition) : summary :=
  {| s_calories := add (s_calories totals) (orZero (n_calories item));
     s_protein := add (s_protein totals) (orZero (n_protein item));
     s_carbs := add (s_carbs totals) (orZero (n_carbs item));
     s_fat := add (s_fat totals) (orZero (n_fat item));
     s_entries := s_entries totals + 1 |}.

Definition summaryJSON (s : summary) : json :=
  JObj [("calories", JNum (s_calories s)); ("protein", JNum (s_protein s));
        ("carbs", JNum (s_carbs s)); ("fat", JNum (s_fat s));
        ("entries", JNum (num (Z.of_nat (s_entries s))))]%string.

(** The totals [getDailySummary] sends. *)
Definition dailySummary (e : env) (store : list nutrition) (userId : string) (date : Z)
    : summary :=
  foldl addEntry (Summary (num 0) (num 0) (num 0) (num 0) 0) (ofDay e userId date store).

(** [getDailySummary(req, res)]; [date] is the instant
    [new Date(req.params.date)] denotes. *)
Definition getDailySummary (e : env) (store : list nutrition) (user : option string)
    (date : Z) : response :=
  match user with
  | None => message 500 noUser
  | Some userId => Response 200 (summaryJSON (dailySummary e store userId date))
  end.

(** A product of the food database, and its [nutriments]. *)
Record nutriments : Type := Nutriments {
  energy_kcal_100g : value;
  energy_100g : value;
  proteins_100g : value;
  carbohydrates_100g : value;
  fat_100g : value }.

Record product : Type := Product {
  product_name : option string;
  brands : option string;
  product_nutriments : option nutriments;
  serving_size : option string;
  quantity : option string }.

Record foodItem : Type := FoodItem {
  f_name : string;
  f_calories : number;
  f_protein : number;
  f_carbs : number;
  f_fat : number;
  f_brand : string;
  f_serving_size : string;
  f_quantity : string }.

(** [s.split(',')[0]] *)
Fixpoint firstField (s : string) : string :=
  match s with
  | EmptyString => EmptyString
  | String c s' => if Ascii.eqb c ","%char then EmptyString else String c (firstField s')
  end.

(** The first [filter] of [searchFood]. *)
Definition usable (p : product) : bool :=
  let hasName := truthyString (product_name p) &&
                 negb (String.eqb (trim (default EmptyString (product_name p))) EmptyString) in
  match product_nutriments p with
  | None => false
  | Some n => hasName && ToBoolean (or_else (energy_kcal_100g n) (energy_100g n))
  end.

(** The [map] of [searchFood]; it runs on products that passed [usable]. *)
Definition simplify (p : product) : option foodItem :=
  match product_nutriments p with
  | None => None
  | Some n =>
      let calories := Math_round (ToNumber (or_else (energy_kcal_100g n) (VNum (num 0)))) in
      let calories :=
        if negb (ToBoolean (VNum calories)) && ToBoolean (energy_100g n)
        then Math_round (div (ToNumber (energy_100g n)) (lit 4.184))
        else calories in
      Some {| f_name := trim (default EmptyString (product_name p));
              f_calories := calories;
              f_protein := Math_round (ToNumber (or_else (proteins_100g n) (VNum (num 0))));
              f_carbs := Math_round (ToNumber (or_else (carbohydrates_100g n) (VNum (num 0))));
              f_fat := Math_round (ToNumber (or_else (fat_100g n) (VNum (num 0))));
              f_brand := if truthyString (brands p)
                         then trim (firstField (default EmptyString (brands p)))
                         else EmptyString;
              f_serving_size := if truthyString (serving_size p)
                                then default EmptyString (serving_size p) else "100g";
              f_quantity := if truthyString (quantity p)
                            then default EmptyString (quantity p) else EmptyString |}
  end.

(** [simplifiedResults] *)
Definition simplifiedResults (products : list product) : list foodItem :=
  List.filter (λ item, lt (num 0) (f_calories item))
    (omap simplify (take 10 (List.filter usable products))).





End NutritionLog.

Import NutritionLog.

(** ** The analytics controller, continued: [getOverview],
       [getCaloriesData], [getWeightTrend] *)

Module Dashboard.

(** *** Calendar dates *)

(** The proleptic Gregorian date [(year, month, day)] of the day number
    [days] counted from 1970-01-01. *)
Definition civil (days : Z) : Z * Z * Z :=
  let z := days + 719468 in
  let era := z / 146097 in
  let doe := z - era * 146097 in
  let yoe := (doe - doe / 1460 + doe / 36524 - doe / 146096) / 365 in
  let doy := doe - (365 * yoe + yoe / 4 - yoe / 100) in
  let mp := (5 * doy + 2) / 153 in
  let d := doy - (153 * mp + 2) / 5 + 1 in
  let m := if bool_decide (mp < 10) then mp + 3 else mp - 9 in
  (yoe + era * 400 + (if bool_decide (m ≤ 2) then 1 else 0), m, d).

(** [{ $year, $month, $dayOfMonth }] of a stored date: its UTC date. *)
Definition utcDate (t : Z) : Z * Z * Z := civil (t / msPerDay).

(** [(d.getFullYear(), d.getMonth() + 1, d.getDate())]: the local date. *)
Definition localDate (e : env) (t : Z) : Z * Z * Z := civil ((t + tzOffset e) / msPerDay).

Definition monthShort (m : Z) : string :=
  nth (Z.to_nat (m - 1))
    ["Jan"; "Feb"; "Mar"; "Apr"; "May"; "Jun"; "Jul"; "Aug"; "Sep"; "Oct"; "Nov"; "Dec"]%string
    EmptyString.

(** [d.toLocaleDateString('en-US', { month: 'short', day: 'numeric' })] *)
Definition shortDate (e : env) (t : Z) : string :=
  let '(_, m, d) := localDate e t in
  monthShort m +:+ " " +:+ pretty d.

(** *** [getOverview] *)

(** [doc.calories || 0] *)
Definition caloriesOr0 (v : value) : number := ToNumber (or_else v (VNum (num 0))).

Record badge : Type := Badge { key : string; label : string; earned : bool }.

Record overview : Type := Overview {
  weeklyCaloriesBurned : number;
  todayCaloriesIn : number;
  o_currentWeight : value;
  calorieBalanceToday : number;
  workoutStreak : nat;
  nutritionStreak : nat;
  badges : list badge }.

(** The figures [getOverview] computes from the three collections. *)
Definition overviewOf (e : env) (workouts : list workout) (nutritions : list nutrition)
    (progresses : list progress) (userId : string) : overview :=
  let today := now e in
  let todayStart := startOfDay e today in
  let todayEnd := endOfDay e todayStart in
  let weekAgo := startOfDay e (addDays today (-7)) in
  let weeklyWorkouts :=
    List.filter (λ w, bool_decide (w_userId w = userId) &&
                      bool_decide (weekAgo ≤ w_date w)) workouts in
  let todayWorkouts :=
    List.filter (λ w, bool_decide (w_userId w = userId) &&
                      bool_decide (todayStart ≤ w_date w) &&
                      bool_decide (w_date w ≤ todayEnd)) workouts in
  let todayNutrition :=
    List.filter (λ n, bool_decide (n_userId n = userId) &&
                      bool_decide (todayStart ≤ n_date n) &&
                      bool_decide (n_date n ≤ todayEnd)) nutritions in
  let allWorkouts := findByUser w_userId userId workouts in
  let allNutrition := findByUser n_userId userId nutritions in
  let latestProgress := findLatest p_userId userId progresses in
  let weeklyCaloriesBurned :=
    foldl (λ sum workout, add sum (caloriesOr0 (w_calories workout))) (num 0) weeklyWorkouts in
  let todayCaloriesIn :=
    foldl (λ sum nutrition, add sum (orZero (n_calories nutrition))) (num 0) todayNutrition in
  let todayWorkoutCalories :=
    foldl (λ sum workout, add sum (caloriesOr0 (w_calories workout))) (num 0) todayWorkouts in
  let workoutStreak := currentStreak e allWorkouts in
  let nutritionStreak := currentStreak e allNutrition in
  let totalWorkouts := length allWorkouts in
  let totalWorkoutCalories :=
    foldl (λ sum workout, add sum (caloriesOr0 (w_calories workout))) (num 0) allWorkouts in
  {| weeklyCaloriesBurned := weeklyCaloriesBurned;
     todayCaloriesIn := todayCaloriesIn;
     o_currentWeight := match latestProgress with
                        | Some p => VNum (p_weight p)
                        | None => VNull
                        end;
     calorieBalanceToday := sub todayCaloriesIn todayWorkoutCalories;
     workoutStreak := workoutStreak;
     nutritionStreak := nutritionStreak;
     badges :=
       [ Badge "first_workout" "First Workout" (bool_decide (1 ≤ totalWorkouts)%nat);
         Badge "ten_workouts" "10 Workouts" (bool_decide (10 ≤ totalWorkouts)%nat);
         Badge "streak_7" "7-Day Workout Streak" (bool_decide (7 ≤ workoutStreak)%nat);
         Badge "burn_5000" "Calorie Burner (5,000+)" (ge totalWorkoutCalories (num 5000));
         Badge "log_7" "7-Day Logging Streak" (bool_decide (7 ≤ nutritionStreak)%nat) ]%string |}.

Definition badgeJSON (b : badge) : json :=
  JObj [("key", JStr (key b)); ("label", JStr (label b)); ("earned", JBool (earned b))]%string.

Definition overviewJSON (o : overview) : json :=
  JObj [("weeklyCaloriesBurned", JNum (weeklyCaloriesBurned o));
        ("todayCaloriesIn", JNum (todayCaloriesIn o));
        ("currentWeight", default JNull (json_of_value (o_currentWeight o)));
        ("calorieBalanceToday", JNum (calorieBalanceToday o));
        ("streaks", JObj [("workout", JNum (num (Z.of_nat (workoutStreak o))));
                          ("nutrition", JNum (num (Z.of_nat (nutritionStreak o))))]);
        ("badges", JArr (badgeJSON <$> badges o))]%string.

(** [getOverview(req, res)] for the authenticated user [userId]. *)
Definition getOverview (e : env) (workouts : list workout) (nutritions : list nutrition)
    (progresses : list progress) (userId : string) : response :=
  Response 200 (overviewJSON (overviewOf e workouts nutritions progresses userId)).

(** *** [getCaloriesData] *)

(** The [$group] stage keyed by the UTC date, with [$sum] of the numeric
    amounts: the groups in order of first appearance. *)
Fixpoint upsert (k : Z * Z * Z) (x : number) (groups : list (Z * Z * Z * number))
    : list (Z * Z * Z * number) :=
  match groups with
  | [] => [(k, add (num 0) x)]
  | (k', total) :: rest =>
      if bool_decide (k' = k) then (k', add total x) :: rest
      else (k', total) :: upsert k x rest
  end.

Definition groupByDate {D : Type} `{Dated D} (amount : D → number) (docs : list D)
    : list (Z * Z * Z * number) :=
  foldl (λ groups d, upsert (utcDate (date_of d)) (amount d) groups) [] docs.

(** [{ $sort: { "_id.year": 1, "_id.month": 1, "_id.day": 1 } }] *)
Definition dateLe (a b : Z * Z * Z) : bool :=
  let '(y1, m1, d1) := a in
  let '(y2, m2, d2) := b in
  bool_decide (y1 < y2) ||
  (bool_decide (y1 = y2) && (bool_decide (m1 < m2) ||
                             (bool_decide (m1 = m2) && bool_decide (d1 ≤ d2)))).

Fixpoint insertGroup (g : Z * Z * Z * number) (l : list (Z * Z * Z * number))
    : list (Z * Z * Z * number) :=
  match l with
  | [] => [g]
  | x :: l' => if dateLe g.1 x.1 then g :: x :: l' else x :: insertGroup g l'
  end.

Definition sortGroups (l : list (Z * Z * Z * number)) : list (Z * Z * Z * number) :=
  foldr insertGroup [] l.

(** [$sum: "$calories"] skips a value that is not a number. *)
Definition numeric (v : value) : number :=
  match v with VNum x => x | _ => num 0 end.

(** [data.find(g => g._id.year === ... )], then [entry ? entry.total : 0]. *)
Definition totalOn (dateKey : Z * Z * Z) (data : list (Z * Z * Z * number)) : number :=
  match List.find (λ g, bool_decide (g.1 = dateKey)) data with
  | Some g => g.2
  | None => num 0
  end.

Record dayRow : Type := DayRow { r_date : string; burned : number; consumed : number }.

(** The seven rows [getCaloriesData] sends, oldest day first. *)
Definition caloriesRows (e : env) (workouts : list workout) (nutritions : list nutrition)
    (userId : string) : list dayRow :=
  let today := now e in
  let weekAgo := addDays today (-7) in
  let workoutData :=
    sortGroups (groupByDate (λ w, numeric (w_calories w))
      (List.filter (λ w, bool_decide (w_userId w = userId) &&
                         bool_decide (weekAgo ≤ w_date w)) workouts)) in
  let nutritionData :=
    sortGroups (groupByDate n_calories
      (List.filter (λ n, bool_decide (n_userId n = userId) &&
                         bool_decide (weekAgo ≤ n_date n)) nutritions)) in
  (λ i : Z,
     let date := addDays today (- i) in
     let dateKey := localDate e date in
     {| r_date := shortDate e date;
        burned := totalOn dateKey workoutData;
        consumed := totalOn dateKey nutritionData |}) <$> [6; 5; 4; 3; 2; 1; 0].

Definition dayRowJSON (r : dayRow) : json :=
  JObj [("date", JStr (r_date r)); ("burned", JNum (burned r));
        ("consumed", JNum (consumed r))]%string.

(** [getCaloriesData(req, res)] for the authenticated user [userId]. *)
Definition getCaloriesData (e : env) (workouts : list workout) (nutritions : list nutrition)
    (userId : string) : response :=
  Response 200 (JArr (dayRowJSON <$> caloriesRows e workouts nutritions userId)).

(** *** [getWeightTrend] *)

(** The points [getWeightTrend] sends. *)
Definition weightTrend (e : env) (store : list progress) (userId : string)
    : list (string * number) :=
  (λ entry, (shortDate e (p_date entry), p_weight entry)) <$> weightWindow e store userId.

(** [getWeightTrend(req, res)] for the authenticated user [userId]. *)
Definition getWeightTrend (e : env) (store : list progress) (userId : string) : response :=
  Response 200
    (JArr ((λ point, JObj [("date", JStr point.1); ("weight", JNum point.2)]%string)
           <$> weightTrend e store userId)).

End Dashboard.

Import Dashboard.

(** ** The frontend: [nutritionUtils], [nutritionAPI], the Progress and
       Workouts pages *)

Module Client.


(** [nutritionUtils.calculateCaloriesFromMacros(protein, carbs, fat)] *)
Definition calculateCaloriesFromMacros (protein carbs fat : number) : number :=
  add (add (mul protein (num 4)) (mul carbs (num 4))) (mul fat (num 9)).

(** [!entry.food || !entry.food.trim()] *)
Definition noFood (food : option string) : bool :=
  negb (truthyString food) || negb (truthyString (trim <$> food)).

(** [!calories || isNaN(calories) || calories < 0] *)
Definition noCalories (calories : value) : bool :=
  negb (ToBoolean calories) || isNaN calories || lt (ToNumber calories) (num 0).

(** [x && (isNaN(x) || x < 0)] *)
Definition badMacro (x : value) : bool :=
  ToBoolean x && (isNaN x || lt (ToNumber x) (num 0)).

(** [nutritionUtils.validateNutritionEntry(entry)], as [(isValid, errors)]. *)
Definition validateNutritionEntry (entry : nutritionBody) : bool * list string :=
  let errors :=
    (if noFood (nb_food entry) then ["Food name is required"%string] else []) ++
    (if noCalories (nb_calories entry) then ["Valid calories value is required"%string] else []) ++
    (if badMacro (nb_protein entry) then ["Protein must be a positive number"%string] else []) ++
    (if badMacro (nb_carbs entry) then ["Carbs must be a positive number"%string] else []) ++
    (if badMacro (nb_fat entry) then ["Fat must be a positive number"%string] else []) in
  (bool_decide (length errors = 0%nat), errors).

(** [new Date().toISOString().split('T')[0]], as the instant the server
    reads that date string as: the UTC midnight of the current UTC day. *)
Definition todayString (now : Z) : Z := now - now mod msPerDay.

(** [nutritionAPI.addNutrition(nutritionData)]: the error it rejects with,
    or the body it posts.  A date is the instant its string denotes. *)
Definition addNutrition (now : Z) (nutritionData : nutritionBody) : string + nutritionBody :=
  if noFood (nb_food nutritionData) then inl "Food name is required"%string
  else if noCalories (nb_calories nutritionData)
  then inl "Valid calories value is required"%string
  else inr {| nb_food := trim <$> nb_food nutritionData;
              nb_calories := VNum (ToNumber (nb_calories nutritionData));
              nb_date := Some (default (todayString now) (nb_date nutritionData));
              nb_protein := VNum (orZero (ToNumber (nb_protein nutritionData)));
              nb_carbs := VNum (orZero (ToNumber (nb_carbs nutritionData)));
              nb_fat := VNum (orZero (ToNumber (nb_fat nutritionData))) |}.


(** [getWeightChange()] of the Progress page: the number 0, or the
    difference of the two newest weights to one decimal. *)
Definition getWeightChange (progress : list progress) : number + string :=
  match progress with
  | current :: previous :: _ => inr (toFixed 1 (sub (p_weight current) (p_weight previous)))
  | _ => inl (num 0)
  end.

(** [isLikelyCalculated(workout)] of the Workouts page. *)
Definition isLikelyCalculated (workout : workout) : bool :=
  if negb (ToBoolean (w_weight workout)) || negb (ToBoolean (w_duration workout)) then false
  else
    let metValue := get MET_VALUES (toLowerCase (w_type workout)) in
    if negb (ToBoolean metValue) then false
    else
      let calculatedCalories :=
        Math_round (mul (mul (ToNumber metValue) (ToNumber (w_weight workout)))
                        (div (ToNumber (w_duration workout)) (num 60))) in
      lt (Math_abs (sub calculatedCalories (ToNumber (w_calories workout)))) (num 2).

End Client.

(** * Specifications *)

(** ** What the specification's formulas denote *)

Module Spec.

Local Open Scope Qc_scope.

(** [round(x)]: the nearest integer, a tie going up. *)
Definition round (x : Qc) : Z := Qfloor (x + Q2Qc (1 # 2))%Qc.


(** [round(coefficient * weightKg * (durationMinutes / 60))] *)
Definition calories (coefficient weightKg durationMinutes : Qc) : Z :=
  round (coefficient * weightKg * (durationMinutes / Qc_of_Z 60)).

(** A numeric input that is missing, zero or not a number. *)
Definition absent (v : value) : Prop :=
  v = VUndefined ∨ v = VNull ∨ v = VNum (num 0) ∨ v = VNum NaN.

(** A numeric input that is missing or not positive. *)
Definition nonPositive (v : value) : Prop :=
  v = VUndefined ∨ v = VNull ∨ ∃ q : Qc, v = VNum (Fin q) ∧ q ≤ 0.


(** [Σ term(x, y)] over the samples [ys], [x] being the position of the
    sample [y], counted from [first]. *)
Fixpoint sigma (term : Qc → Qc → Qc) (first : Z) (ys : list Qc) : Qc :=
  match ys with
  | [] => 0
  | y :: ys' => term (Qc_of_Z first) y + sigma term (first + 1) ys'
  end.

(** [slope = (n·Σ(xy) − Σx·Σy) / (n·Σ(x²) − (Σx)²)] *)
Definition slope (ys : list Qc) : Qc :=
  let n := Qc_of_Z (Z.of_nat (length ys)) in
  let Σx := sigma (λ x _, x) 0 ys in
  let Σy := sigma (λ _ y, y) 0 ys in
  let Σxy := sigma (λ x y, x * y) 0 ys in
  let Σx2 := sigma (λ x _, x * x) 0 ys in
  (n * Σxy - Σx * Σy) / (n * Σx2 - Σx * Σx).

(** A weight entry of [userId] inside the 30-day lookback window. *)
Definition inWindow (e : env) (userId : string) (p : progress) : Prop :=
  p_userId p = userId ∧ (addDays (now e) (-30) ≤ p_date p)%Z.

#[global] Instance inWindow_dec e userId p : Decision (inWindow e userId p).
Proof. unfold inWindow. apply _. Defined.

(** Two instants of the same local calendar day. *)
Definition sameDay (e : env) (t1 t2 : Z) : Prop := startOfDay e t1 = startOfDay e t2.

(** At most one progress entry per user and calendar day. *)
Definition onePerDay (e : env) (store : list progress) : Prop :=
  ∀ (i j : nat) (p q : progress),
    store !! i = Some p → store !! j = Some q →
    p_userId p = p_userId q → sameDay e (p_date p) (p_date q) → i = j.

(** A macro value that is negative or not a number. *)
Definition negativeOrNaN (v : value) : Prop :=
  isNaN v = true ∨ lt (ToNumber v) (num 0) = true.

(** The request body with one macro replaced. *)
Definition withProtein (v : value) (b : nutritionBody) : nutritionBody :=
  NutritionBody (nb_food b) (nb_calories b) (nb_date b) v (nb_carbs b) (nb_fat b).
Definition withCarbs (v : value) (b : nutritionBody) : nutritionBody :=
  NutritionBody (nb_food b) (nb_calories b) (nb_date b) (nb_protein b) v (nb_fat b).
Definition withFat (v : value) (b : nutritionBody) : nutritionBody :=
  NutritionBody (nb_food b) (nb_calories b) (nb_date b) (nb_protein b) (nb_carbs b) v.

(** The exact total of a list of gram amounts. *)
Definition total (xs : list Qc) : Qc := foldr Qcplus 0 xs.


(** A nutrition entry of [userId] inside the 7-day window of the macro
    breakdown. *)
Definition inWeek (e : env) (userId : string) (n : nutrition) : Prop :=
  n_userId n = userId ∧ (addDays (now e) (-7) ≤ n_date n)%Z.

#[global] Instance inWeek_dec e userId n : Decision (inWeek e userId n).
Proof. unfold inWeek. apply _. Defined.

(** An entry whose macros are finite numbers, as the schema's range checks
    guarantee for every stored entry. *)
Definition finiteMacros (n : nutrition) : Prop :=
  isFinite (n_protein n) = true ∧ isFinite (n_carbs n) = true ∧ isFinite (n_fat n) = true.

(** The collection has an entry on the calendar day that starts at the
    local midnight [day]. *)
Definition hasEntryOn {D : Type} `{Dated D} (e : env) (docs : list D) (day : Z) : Prop :=
  ∃ doc, doc ∈ docs ∧ startOfDay e (date_of doc) = day.

(** The day [k] days before today, as the local midnight that starts it. *)
Definition daysAgo (e : env) (k : nat) : Z :=
  addDays (startOfDay e (now e)) (- Z.of_nat k).

(** A progress entry whose weight the schema accepts: 20 to 500 kg. *)
Definition validWeight (p : progress) : Prop :=
  ∃ q : Qc, p_weight p = Fin q ∧ Qc_of_Z 20 ≤ q ∧ q ≤ Qc_of_Z 500.

(** An amount in grams from 0 to 1000. *)
Definition validMacro (x : number) : Prop :=
  ∃ q : Qc, x = Fin q ∧ 0 ≤ q ∧ q ≤ Qc_of_Z 1000.

(** A nutrition entry as the controller and the schema let it through: a
    trimmed, non-empty food name of at most 200 characters, calories above
    0 and at most 10000, each macro from 0 to 1000 g. *)
Definition validEntry (n : nutrition) : Prop :=
  n_food n ≠ EmptyString ∧ (String.length (n_food n) ≤ 200)%nat ∧
  (∃ c : Qc, n_calories n = Fin c ∧ 0 < c ∧ c ≤ Qc_of_Z 10000) ∧
  validMacro (n_protein n) ∧ validMacro (n_carbs n) ∧ validMacro (n_fat n).

(** A workout as [setWorkout] and the schema let it through: a non-empty
    type, a duration of at least 1, calories of at least 1, and a weight
    that is absent or at least 1. *)
Definition validWorkout (w : workout) : Prop :=
  w_type w ≠ EmptyString ∧
  ge (ToNumber (w_duration w)) (num 1) = true ∧
  ge (ToNumber (w_calories w)) (num 1) = true ∧
  (w_weight w = VUndefined ∨ w_weight w = VNull ∨ ge (ToNumber (w_weight w)) (num 1) = true).




End Spec.

(** ** Sample data for the worked examples *)

Module Examples.

Definition server : env :=
  {| now := 1700000000000; tzOffset := 19800000; nextId := "65531f00a1b2c3d4e5f60003" |}.

Definition alice : string := "64f0c0ffee000000000a11ce".
Definition bob : string := "64f0c0ffee00000000000b0b".

(** Two weight entries of alice, stored newest first: 72 kg yesterday,
    70 kg three days ago. *)
Definition weights : list progress :=
  [ {| p_id := "65531f00a1b2c3d4e5f60002"; p_userId := alice;
       p_weight := num 72; p_date := now server - msPerDay |};
    {| p_id := "65531f00a1b2c3d4e5f60001"; p_userId := alice;
       p_weight := num 70; p_date := now server - 3 * msPerDay |} ].

Definition workouts : list workout :=
  [ {| w_id := "65531f00a1b2c3d4e5f6000a"; w_userId := alice; w_type := "running";
       w_duration := VNum (num 30); w_weight := VNum (num 70);
       w_calories := VNum (num 343); w_date := now server - msPerDay |} ].

(** A request to log a 30-minute run, without weight or calories. *)
Definition run : updateBody :=
  {| b_type := Some "Running"%string; b_duration := VNum (num 30);
     b_weight := VUndefined; b_calories := VUndefined;
     b_date := None; b_userId := None |}.

(** A request to change a workout's duration to 45 minutes. *)
Definition longer : updateBody :=
  {| b_type := None; b_duration := VNum (num 45); b_weight := VUndefined;
     b_calories := VUndefined; b_date := None; b_userId := None |}.

Definition meals : list nutrition :=
  [ {| n_id := "65531f00a1b2c3d4e5f6000b"; n_userId := alice; n_food := "oats";
       n_calories := num 150; n_protein := num 5; n_carbs := num 27; n_fat := num 3;
       n_date := now server - msPerDay |} ].

(** A snack as the entry form holds it, with a negative protein value and
    two macros left out. *)
Definition snack : nutritionBody :=
  {| nb_food := Some "  boiled egg "%string; nb_calories := VNum (num 78);
     nb_date := None; nb_protein := VNum (num (-6));
     nb_carbs := VUndefined; nb_fat := VNum NaN |}.

End Examples.

(** ** Numbers *)

Section Numbers.

Local Open Scope Qc_scope.

Lemma Fin_ext (a b : Qc) : (this a == this b)%Q → Fin a = Fin b.
Proof. intros H. f_equal. by apply Qc_is_canon. Qed.


Lemma this_mult (a b : Qc) : (this (a * b) == this a * this b)%Q.
Proof. apply Qred_correct. Qed.



Lemma ToBoolean_pos (q : Qc) : 0 < q → ToBoolean (VNum (Fin q)) = true.
Proof.
  intros Hq. cbn. rewrite bool_decide_eq_false_2; [done |].
  intros ->. by apply (Qclt_not_eq 0 0).
Qed.


End Numbers.

(** ** The derivation engine *)

Section Derivation.

Local Open Scope Qc_scope.





Example calories_running_30_70 : Spec.calories (Q2Qc 9.8) (Qc_of_Z 70) (Qc_of_Z 30) = 343%Z.
Proof. reflexivity. Qed.





Example calculateCalories_negative :
  calculateCalories "running" (VNum (num (-30))) (VNum (num 70)) = VNum (num (-343)).
Proof. reflexivity. Qed.

Example calculateCalories_inherited :
  calculateCalories "constructor" (VNum (num 30)) (VNum (num 70)) = VNum NaN.
Proof. reflexivity. Qed.

(** C2, as stated, fails: a negative duration is not refused.  For running,
    -30 minutes and 70 kg the engine returns the computed value -343.  The
    lookup also reaches what the table inherits: for the type
    [constructor], which is no entry of the table, it returns [NaN]. *)
Lemma calculateCalories_refuses_counterexample :
  ¬ (∀ (type : string) (duration weight : value),
       MET_VALUES !! toLowerCase type = None ∨
       Spec.nonPositive duration ∨ Spec.nonPositive weight →
       calculateCalories type duration weight = VNull) ∧
  Spec.nonPositive (VNum (num (-30))) ∧
  calculateCalories "running" (VNum (num (-30))) (VNum (num 70)) = VNum (num (-343)) ∧
  MET_VALUES !! toLowerCase "constructor" = None ∧
  calculateCalories "constructor" (VNum (num 30)) (VNum (num 70)) = VNum NaN.
Proof.
  assert (Hneg : Spec.nonPositive (VNum (num (-30)))).
  { right; right. exists (Qc_of_Z (-30)). split; [reflexivity | by vm_compute]. }
  repeat split; try done.
  intros H.
  specialize (H "running"%string (VNum (num (-30))) (VNum (num 70))).
  rewrite calculateCalories_negative in H. discriminate H. by right; left.
Qed.

Lemma ToBoolean_absent (v : value) : Spec.absent v → ToBoolean v = false.
Proof. by intros [-> | [-> | [-> | ->]]]. Qed.

(** C2, amended. When the lower-cased activity type names no entry of the
    coefficient table (nor a member inherited from [Object.prototype]), or
    the duration or the weight is missing, zero or [NaN], the engine
    returns [null]. *)
Theorem calculateCalories_refuses (type : string) (duration weight : value) :
  (MET_VALUES !! toLowerCase type = None ∧ toLowerCase type ∉ Object_prototype) ∨
  Spec.absent duration ∨ Spec.absent weight →
  calculateCalories type duration weight = VNull.
Proof.
  unfold calculateCalories, get. intros [[Hnone Hproto] | [H | H]].
  - rewrite Hnone, bool_decide_eq_false_2 by done. reflexivity.
  - rewrite (ToBoolean_absent duration H). cbn. by rewrite !orb_true_r.
  - rewrite (ToBoolean_absent weight H). cbn. by rewrite orb_true_r.
Qed.

Lemma calculateCalories_refuses_witness :
  calculateCalories "Yoga" (VNum (num 30)) (VNum (num 70)) = VNull.
Proof.
  apply calculateCalories_refuses. left. split.
  - reflexivity.
  - apply (proj1 (bool_decide_eq_false _)). reflexivity.
Defined.

End Derivation.

(** ** Streaks *)

Section Streak.

Context {D : Type} `{Dated D}.

Lemma streakLoop_unfold (dateMap : gmap Z (list D)) (currentDate : Z) (streak : nat) :
  streakLoop dateMap currentDate streak =
    match dateMap !! currentDate with
    | Some _ => streakLoop dateMap (addDays currentDate (-1)) (S streak)
    | None => streak
    end.
Proof.
  funelim (streakLoop dateMap currentDate streak);
    match goal with E : _ !! _ = _ |- _ => rewrite E end; congruence.
Qed.

(** The loop adds to [streak] the number [k] of consecutive keys it finds
    walking back from [currentDate], and stops at the first missing one. *)
Lemma streakLoop_spec (dateMap : gmap Z (list D)) (currentDate : Z) (streak : nat) :
  ∃ k : nat,
    streakLoop dateMap currentDate streak = (streak + k)%nat ∧
    (∀ i : nat, (i < k)%nat → is_Some (dateMap !! addDays currentDate (- Z.of_nat i))) ∧
    dateMap !! addDays currentDate (- Z.of_nat k) = None.
Proof.
  funelim (streakLoop dateMap currentDate streak).
  - match goal with IH : ∃ k : nat, _ |- _ => destruct IH as (k & Hk & Hsome & Hnone) end.
    exists (S k). split; [rewrite Hk; lia |]. split.
    + intros [| i] Hi.
      * replace (addDays currentDate (- Z.of_nat 0)) with currentDate
          by (unfold addDays; lia). eauto.
      * replace (addDays currentDate (- Z.of_nat (S i)))
          with (addDays (addDays currentDate (-1)) (- Z.of_nat i))
          by (unfold addDays; lia).
        apply Hsome. lia.
    + replace (addDays currentDate (- Z.of_nat (S k)))
        with (addDays (addDays currentDate (-1)) (- Z.of_nat k))
        by (unfold addDays; lia).
      done.
  - exists 0%nat. split; [lia |]. split; [lia |].
    replace (addDays currentDate (- Z.of_nat 0)) with currentDate
      by (unfold addDays; lia).
    done.
Qed.

Lemma groupStep_lookup (e : env) (dateMap : gmap Z (list D)) (doc : D) (k : Z) :
  is_Some (groupStep e dateMap doc !! k) ↔
  is_Some (dateMap !! k) ∨ startOfDay e (date_of doc) = k.
Proof.
  unfold groupStep. set (dateKey := startOfDay e (date_of doc)).
  destruct (decide (dateKey = k)) as [<- | Hne].
  - rewrite lookup_alter_eq. destruct (dateMap !! dateKey) eqn:E.
    + rewrite E. cbn. split; eauto.
    + rewrite lookup_insert_eq. cbn. split; eauto.
  - rewrite lookup_alter_ne by done. destruct (dateMap !! dateKey) eqn:E.
    + split; [eauto | by intros [? | ?]].
    + rewrite lookup_insert_ne by done. split; [eauto | by intros [? | ?]].
Qed.

Lemma group_lookup (e : env) (docs : list D) (dateMap : gmap Z (list D)) (k : Z) :
  is_Some (foldl (groupStep e) dateMap docs !! k) ↔
  is_Some (dateMap !! k) ∨ Spec.hasEntryOn e docs k.
Proof.
  revert dateMap. induction docs as [| doc docs IH]; intros dateMap; cbn [foldl].
  - split; [eauto |]. intros [? | (doc & Hin & _)]; [done |].
    by apply elem_of_nil in Hin.
  - rewrite IH, groupStep_lookup. unfold Spec.hasEntryOn. split.
    + intros [[? | Hk] | (d & Hin & Hd)]; [by left | |].
      * right. exists doc. split; [apply list_elem_of_here | done].
      * right. exists d. split; [by apply list_elem_of_further | done].
    + intros [? | (d & Hin & Hd)]; [by left; left |].
      apply elem_of_cons in Hin as [-> | Hin]; [by left; right |].
      right. by exists d.
Qed.

Lemma currentStreak_walk (e : env) (docs : list D) :
  (∀ i : nat, (i < currentStreak e docs)%nat → Spec.hasEntryOn e docs (Spec.daysAgo e i)) ∧
  ¬ Spec.hasEntryOn e docs (Spec.daysAgo e (currentStreak e docs)).
Proof.
  unfold currentStreak, Spec.daysAgo. destruct docs as [| doc docs].
  - split; [lia |]. intros (d & Hin & _). by apply elem_of_nil in Hin.
  - set (all := doc :: docs).
    destruct (streakLoop_spec (foldl (groupStep e) ∅ all) (startOfDay e (now e)) 0)
      as (k & -> & Hsome & Hnone).
    cbn [Nat.add]. split.
    + intros i Hi. specialize (Hsome i Hi).
      apply group_lookup in Hsome as [Hempty | ?]; [| done].
      rewrite lookup_empty in Hempty. by destruct Hempty.
    + intros Hentry.
      assert (is_Some (foldl (groupStep e) ∅ all
                         !! addDays (startOfDay e (now e)) (- Z.of_nat k))) as [? Hs]
        by (apply group_lookup; by right).
      congruence.
Qed.

(** C3. [currentStreak] is 0 for an empty collection, 1 when today has an
    entry and yesterday has none, 0 when yesterday has an entry but today
    has none, and in general the number of consecutive calendar days with
    an entry counted backward from today: every one of the [streak] days
    from today back has an entry and the day before them has none. *)
Theorem currentStreak_spec (e : env) (docs : list D) :
  currentStreak e (@nil D) = 0%nat ∧
  (Spec.hasEntryOn e docs (Spec.daysAgo e 0) ∧ ¬ Spec.hasEntryOn e docs (Spec.daysAgo e 1) →
   currentStreak e docs = 1%nat) ∧
  (Spec.hasEntryOn e docs (Spec.daysAgo e 1) ∧ ¬ Spec.hasEntryOn e docs (Spec.daysAgo e 0) →
   currentStreak e docs = 0%nat) ∧
  (∀ i : nat, (i < currentStreak e docs)%nat → Spec.hasEntryOn e docs (Spec.daysAgo e i)) ∧
  ¬ Spec.hasEntryOn e docs (Spec.daysAgo e (currentStreak e docs)).
Proof.
  destruct (currentStreak_walk e docs) as [Hsome Hnone].
  split; [reflexivity |]. split; [| split; [| done]].
  - intros [Htoday Hyesterday].
    destruct (currentStreak e docs) as [| [| n]]; [done | done |].
    destruct Hyesterday. apply Hsome. lia.
  - intros [_ Htoday].
    destruct (currentStreak e docs) as [| n]; [done |].
    destruct Htoday. apply Hsome. lia.
Qed.

End Streak.

(** Entries today, yesterday and three days ago: the streak is 2. *)
Example streak_with_gap :
  let t := now Examples.server in
  currentStreak Examples.server [t; addDays t (-3); addDays t (-1); t - 60000] = 2%nat.
Proof. vm_compute. reflexivity. Qed.

(** The last entry is yesterday's: today's streak is 0. *)
Example streak_reset :
  currentStreak Examples.server Examples.workouts = 0%nat.
Proof. vm_compute. reflexivity. Qed.

(** ** Macro percentages *)

Section Macros.

Local Open Scope Qc_scope.









Example macros_of_a_week :
  getMacrosData Examples.server Examples.meals Examples.alice =
    Response 200 (macrosJSON (num 14) (num 77) (num 9)).
Proof. reflexivity. Qed.

End Macros.

(** ** The forecast engine *)

Section Forecast.

Local Open Scope Qc_scope.






Lemma length_insertByDate {D : Type} `{Dated D} (d : D) (l : list D) :
  length (insertByDate d l) = S (length l).
Proof.
  induction l as [| x l IH]; cbn; [done |].
  case_bool_decide; cbn; by rewrite ?IH.
Qed.

Lemma length_sortByDate {D : Type} `{Dated D} (l : list D) :
  length (sortByDate l) = length l.
Proof.
  induction l as [| x l IH]; [done |].
  change (sortByDate (x :: l)) with (insertByDate x (sortByDate l)).
  by rewrite length_insertByDate, IH.
Qed.

Lemma insertByDate_perm {D : Type} `{Dated D} (d : D) (l : list D) :
  insertByDate d l ≡ₚ d :: l.
Proof.
  induction l as [| x l IH]; cbn; [done |].
  case_bool_decide; [done |]. rewrite IH. apply Permutation_swap.
Qed.

Lemma sortByDate_perm {D : Type} `{Dated D} (l : list D) : sortByDate l ≡ₚ l.
Proof.
  induction l as [| x l IH]; [done |].
  change (sortByDate (x :: l)) with (insertByDate x (sortByDate l)).
  by rewrite insertByDate_perm, IH.
Qed.

Lemma insertByDate_sorted {D : Type} `{Dated D} (d : D) (l : list D) :
  Sorted (λ a b, date_of a ≤ date_of b)%Z l →
  Sorted (λ a b, date_of a ≤ date_of b)%Z (insertByDate d l).
Proof.
  induction 1 as [| x l Hl IH Hx]; cbn.
  - by repeat constructor.
  - case_bool_decide as Hd.
    + constructor; [by constructor |]. by constructor.
    + constructor; [done |]. destruct Hx as [| y l Hxy]; cbn.
      * constructor. lia.
      * case_bool_decide; constructor; [lia | done].
Qed.

Lemma sortByDate_sorted {D : Type} `{Dated D} (l : list D) :
  Sorted (λ a b, date_of a ≤ date_of b)%Z (sortByDate l).
Proof.
  induction l as [| x l IH]; [constructor |].
  change (sortByDate (x :: l)) with (insertByDate x (sortByDate l)).
  by apply insertByDate_sorted.
Qed.

Lemma filter_inWindow (e : env) (userId : string) (store : list progress) :
  List.filter (λ p, bool_decide (p_userId p = userId) &&
                    bool_decide (addDays (now e) (-30) ≤ p_date p)%Z) store =
    filter (Spec.inWindow e userId) store.
Proof.
  induction store as [| p store IH]; [done |]. cbn [List.filter].
  rewrite (filter_cons (Spec.inWindow e userId)), IH.
  destruct (decide (Spec.inWindow e userId p)) as [[? ?] | Hn];
    repeat case_bool_decide; try done.
  destruct Hn. by split.
Qed.

(** The samples of the regression are the user's entries of the window,
    each once, in chronological order. *)
Lemma weightWindow_spec (e : env) (store : list progress) (userId : string) :
  weightWindow e store userId ≡ₚ filter (Spec.inWindow e userId) store ∧
  Sorted (λ a b, p_date a ≤ p_date b)%Z (weightWindow e store userId).
Proof.
  unfold weightWindow. rewrite filter_inWindow. split.
  - apply sortByDate_perm.
  - apply (sortByDate_sorted (D := progress)).
Qed.




Example forecast_70_72 :
  getForecast Examples.server Examples.weights Examples.alice =
    Response 200 (JObj [("currentWeight", JNum (num 72));
                        ("weeklyTrend", JStr "14.00");
                        ("monthlyTrend", JStr "60.00");
                        ("message", JStr "At this rate, you'll gain 60.0kg in 1 month");
                        ("dataPoints", JNum (num 2))]%string).
Proof. reflexivity. Qed.

(** C6. With fewer than two weight samples of the user in the lookback
    window, [getForecast] answers with the null prediction and its
    explanatory message, and the answer carries no current weight, weekly
    trend or monthly trend. *)
Theorem forecast_insufficient (e : env) (store : list progress) (userId : string) :
  (length (filter (Spec.inWindow e userId) store) < 2)%nat →
  let res := getForecast e store userId in
  res = Response 200
          (JObj [("prediction", JNull);
                 ("message", JStr "Need at least 2 weight entries to generate forecast")]%string) ∧
  field "prediction" (body res) = Some JNull ∧
  field "currentWeight" (body res) = None ∧
  field "weeklyTrend" (body res) = None ∧
  field "monthlyTrend" (body res) = None ∧
  field "dataPoints" (body res) = None.
Proof.
  intros Hn res.
  assert (Hres : res = Response 200
    (JObj [("prediction", JNull);
           ("message", JStr "Need at least 2 weight entries to generate forecast")]%string)).
  { unfold res, getForecast. rewrite bool_decide_eq_true_2; [done |].
    unfold weightWindow. by rewrite length_sortByDate, filter_inWindow. }
  rewrite Hres. repeat split; reflexivity.
Qed.

Lemma forecast_insufficient_witness :
  getForecast Examples.server Examples.weights Examples.bob =
    Response 200
      (JObj [("prediction", JNull);
             ("message", JStr "Need at least 2 weight entries to generate forecast")]%string).
Proof.
  refine (proj1 (forecast_insufficient Examples.server Examples.weights Examples.bob _)).
  vm_compute. lia.
Defined.

End Forecast.

(** ** One progress entry per user and day *)

Section Duplicates.

Lemma startOfDay_range (e : env) (d t : Z) :
  startOfDay e d ≤ t ≤ endOfDay e d ↔ Spec.sameDay e t d.
Proof.
  unfold Spec.sameDay, endOfDay, startOfDay, msPerDay.
  pose proof (Z.mod_pos_bound (d + tzOffset e) 86400000 ltac:(lia)) as Hd.
  pose proof (Z.mod_pos_bound (t + tzOffset e) 86400000 ltac:(lia)) as Ht.
  pose proof (Z.div_mod (d + tzOffset e) 86400000 ltac:(lia)) as Ed.
  pose proof (Z.div_mod (t + tzOffset e) 86400000 ltac:(lia)) as Et.
  split.
  - intros [Hlo Hhi].
    assert ((t + tzOffset e) / 86400000 = (d + tzOffset e) / 86400000) by nia.
    lia.
  - intros Heq. lia.
Qed.

Lemma existingEntry_None (e : env) (this : progress) (store : list progress) :
  existingEntry e this store = None ↔
  ∀ q, q ∈ store → ¬ (p_userId q = p_userId this ∧ Spec.sameDay e (p_date q) (p_date this)).
Proof.
  unfold existingEntry. rewrite <- Forall_forall. split.
  - intros Hnone. apply Forall_forall. intros q Hq [Hu Hd].
    apply list_elem_of_In in Hq.
    eapply find_none in Hnone; [| exact Hq]. cbn beta in Hnone.
    apply startOfDay_range in Hd.
    rewrite !bool_decide_eq_true_2 in Hnone by (done || lia). done.
  - intros Hall. induction store as [| q store IH]; [done |].
    apply Forall_cons in Hall as [Hq Hall]. cbn [List.find].
    destruct (_ && _) eqn:E; [| by apply IH].
    destruct Hq. apply andb_true_iff in E as [E E3]. apply andb_true_iff in E as [E1 E2].
    apply bool_decide_eq_true_1 in E1, E2, E3.
    split; [done |]. by apply startOfDay_range.
Qed.

Lemma existingEntry_Some (e : env) (this p : progress) (store : list progress) :
  p ∈ store → p_userId p = p_userId this → Spec.sameDay e (p_date p) (p_date this) →
  is_Some (existingEntry e this store).
Proof.
  intros Hin Hu Hd. destruct (existingEntry e this store) eqn:E; [eauto |].
  pose proof (proj1 (existingEntry_None e this store) E p Hin) as Hno. by destruct Hno.
Qed.

Lemma addProgress_store (e : env) (store : list progress) (user : option string)
    (weight : value) (date : option Z) :
  let result := addProgress e store user weight date in
  (status result.1 ≠ 201%nat ∧ result.2 = store) ∨
  ∃ userId doc,
    user = Some userId ∧
    doc = Progress (nextId e) userId (ToNumber weight) (default (now e) date) ∧
    existingEntry e doc store = None ∧
    result = (Response 201 (progress_toJSON doc), store ++ [doc]).
Proof.
  unfold addProgress. destruct (ToBoolean weight); cbn [negb]; [| by left].
  destruct user as [userId |]; [| by left].
  unfold progress_create. destruct (progress_validate _); [| by left].
  destruct (existingEntry e _ store) eqn:E; [by left |].
  right. by eexists _, _.
Qed.

(** C7. [addProgress] keeps at most one progress entry per user and
    calendar day: a collection with that property still has it after the
    request, and when an entry of the user for the calendar day of the
    request is already stored, the attempt is rejected and the collection
    is left unchanged; for a weight the schema accepts the rejection is the
    duplicate-entry error. *)
Theorem progress_one_entry_per_day (e : env) (store : list progress)
    (user : option string) (weight : value) (date : option Z) :
  let result := addProgress e store user weight date in
  (Spec.onePerDay e store → Spec.onePerDay e result.2) ∧
  (∀ (userId : string) (p : progress),
     user = Some userId → p ∈ store → p_userId p = userId →
     Spec.sameDay e (p_date p) (default (now e) date) →
     result.2 = store ∧ status result.1 ≠ 201%nat ∧
     (ge (ToNumber weight) (num 20) = true → le (ToNumber weight) (num 500) = true →
      result.1 = message 500 "Progress entry already exists for this date")).
Proof.
  cbv zeta. split.
  - intros Hone. pose proof (addProgress_store e store user weight date) as Hstore.
    cbv zeta in Hstore.
    destruct Hstore as [[_ Hsame] | (userId & doc & -> & Hdoc & Hnone & Hres)].
    + by rewrite Hsame.
    + rewrite Hres. cbn [snd].
      pose proof (proj1 (existingEntry_None e doc store) Hnone) as Hno.
      clear Hnone. rename Hno into Hnone.
      intros i j p q Hi Hj Hu Hd.
      apply lookup_snoc_Some in Hi as [[Hi Hp] | [Hi <-]];
        apply lookup_snoc_Some in Hj as [[Hj Hq] | [Hj <-]].
      * by eapply Hone.
      * destruct (Hnone p); [by eapply list_elem_of_lookup_2 | done].
      * destruct (Hnone q); [by eapply list_elem_of_lookup_2 |].
        split; [done |]. by symmetry.
      * lia.
  - intros userId p -> Hin Hu Hd.
    assert (Hex : is_Some (existingEntry e
              (Progress (nextId e) userId (ToNumber weight) (default (now e) date)) store))
      by (by eapply existingEntry_Some).
    destruct Hex as [q Hq]. unfold addProgress, progress_create.
    destruct (ToBoolean weight) eqn:Hw; cbn [negb].
    + destruct (progress_validate _) eqn:Hv.
      * rewrite Hq. cbn. repeat split; done.
      * cbn. repeat split; [done |]. intros Hge Hle.
        unfold progress_validate, checkRange in Hv. cbn [p_weight] in Hv.
        by rewrite Hge, Hle in Hv.
    + cbn. repeat split; [done |]. intros Hge _.
      destruct weight as [| | [| | | w] |]; try done.
      cbn in Hw, Hge. apply negb_false_iff, bool_decide_eq_true_1 in Hw. subst w.
      by vm_compute in Hge.
Qed.

(** A day on which alice logs twice: the first request is stored, the
    second, a few hours later, is refused and changes nothing. *)
Example progress_second_attempt :
  let first := addProgress Examples.server Examples.weights (Some Examples.alice)
                 (VNum (num 71)) None in
  let later := {| now := now Examples.server + 3 * 3600000;
                  tzOffset := tzOffset Examples.server;
                  nextId := "65531f00a1b2c3d4e5f60004" |} in
  status first.1 = 201%nat ∧
  addProgress later first.2 (Some Examples.alice) (VNum (lit 70.5)) None =
    (message 500 "Progress entry already exists for this date", first.2).
Proof. split; reflexivity. Qed.

End Duplicates.

(** ** Ownership *)

Section Ownership.

(** C8. When the workout, nutrition entry or progress entry of the request
    exists and its owner is not the caller, [deleteWorkout],
    [updateWorkout], [deleteNutrition] and [deleteProgress] answer 401 (the
    not-found answers are 400 and 404), never 200, and leave the collection
    as it was, so the record is neither deleted nor modified. *)
Theorem ownership_enforced (caller : option string) (id : string) :
  (∀ (store : list workout) (w : workout),
     findById w_id id store = Some w → caller ≠ Some (w_userId w) →
     (status (deleteWorkout store caller id).1 = 401%nat ∧
      (deleteWorkout store caller id).2 = store) ∧
     (∀ progresses body,
        status (updateWorkout progresses store caller id body).1 = 401%nat ∧
        (updateWorkout progresses store caller id body).2 = store)) ∧
  (∀ (store : list nutrition) (n : nutrition),
     findById n_id id store = Some n → caller ≠ Some (n_userId n) →
     status (deleteNutrition store caller id).1 = 401%nat ∧
     (deleteNutrition store caller id).2 = store) ∧
  (∀ (store : list progress) (p : progress),
     findById p_id id store = Some p → caller ≠ Some (p_userId p) →
     status (deleteProgress store caller id).1 = 401%nat ∧
     (deleteProgress store caller id).2 = store) ∧
  (∀ (store : list workout),
     findById w_id id store = None →
     deleteWorkout store caller id = (message 400 "Workout not found", store) ∧
     ∀ progresses body,
       updateWorkout progresses store caller id body =
         (message 400 "Workout not found", store)) ∧
  (∀ (store : list nutrition),
     findById n_id id store = None →
     deleteNutrition store caller id = (message 404 "Nutrition entry not found", store)) ∧
  (∀ (store : list progress),
     findById p_id id store = None →
     deleteProgress store caller id = (message 400 "Progress entry not found", store)).
Proof.
  repeat split.
  all: try (intros; unfold deleteWorkout, updateWorkout, deleteNutrition, deleteProgress;
            match goal with Hnone : findById _ _ _ = None |- _ => by rewrite Hnone end).
  all: unfold deleteWorkout, updateWorkout, deleteNutrition, deleteProgress;
    match goal with Hsome : findById _ _ _ = Some _ |- _ => rewrite Hsome end;
    destruct caller as [userId |]; try done;
    rewrite bool_decide_eq_false_2 by congruence; done.
Qed.

Example delete_foreign_workout :
  deleteWorkout Examples.workouts (Some Examples.bob) "65531f00a1b2c3d4e5f6000a" =
    (message 401 "User not authorized", Examples.workouts).
Proof. reflexivity. Qed.

Example delete_own_workout :
  deleteWorkout Examples.workouts (Some Examples.alice) "65531f00a1b2c3d4e5f6000a" =
    (Response 200 (JObj [("id", JStr "65531f00a1b2c3d4e5f6000a")]%string), []).
Proof. reflexivity. Qed.

End Ownership.

(** ** Validation of a nutrition entry *)

Section NutritionValidation.

Local Open Scope Qc_scope.

Lemma validatedMacro_clamped (v : value) :
  Spec.negativeOrNaN v → validatedMacro v = num 0.
Proof.
  unfold Spec.negativeOrNaN, validatedMacro, isNaN.
  intros [Hnan | Hneg]; [by rewrite Hnan |].
  destruct (ToNumber v) as [| | | q]; try done.
  unfold Math_max, lt, num in *. apply bool_decide_eq_true_1 in Hneg.
  rewrite bool_decide_eq_false_2; [done |].
  intros H0. apply (Qclt_not_eq (Qc_of_Z 0) (Qc_of_Z 0)); [| done].
  by apply (Qclt_trans _ q).
Qed.

Lemma validatedMacro_zero : validatedMacro (VNum (num 0)) = num 0.
Proof. reflexivity. Qed.

Lemma validatedMacro_nonneg (v : value) : ge (validatedMacro v) (num 0) = true.
Proof.
  unfold validatedMacro, isNaN. destruct (ToNumber v) as [| | | q]; try done.
  unfold num. cbn [Math_max].
  destruct (lt (Fin (Qc_of_Z 0)) (Fin q)) eqn:E; [| done].
  unfold ge, le. by rewrite E.
Qed.

Lemma checkRange_ok (path : string) (x : number) (lo hi : Z) (tooLow tooHigh : string) :
  ge x (num lo) = true → le x (num hi) = true →
  checkRange path x lo hi tooLow tooHigh = [].
Proof. intros Hlo Hhi. unfold checkRange. by rewrite Hlo, Hhi. Qed.

(** Both sides of the request read the macro through [validatedMacro]. *)
Ltac clamp Hbad :=
  unfold addNutrition, Spec.withProtein, Spec.withCarbs, Spec.withFat;
  cbn [nb_food nb_calories nb_date nb_protein nb_carbs nb_fat];
  rewrite (validatedMacro_clamped _ Hbad), validatedMacro_zero.

(** C10. A protein, carb or fat value that is negative or not a number does
    not make [addNutrition] reject the request: the request is answered as
    if that macro were 0, and when the food name, the calories and the
    other macros are acceptable the entry is created with the macro stored
    as 0.  Calories that are missing or negative are answered 400 and
    nothing is stored. *)
Theorem nutrition_macros_clamped (e : env) (store : list nutrition)
    (user : option string) (body : nutritionBody) :
  (Spec.negativeOrNaN (nb_protein body) →
   addNutrition e store user body =
     addNutrition e store user (Spec.withProtein (VNum (num 0)) body)) ∧
  (Spec.negativeOrNaN (nb_carbs body) →
   addNutrition e store user body =
     addNutrition e store user (Spec.withCarbs (VNum (num 0)) body)) ∧
  (Spec.negativeOrNaN (nb_fat body) →
   addNutrition e store user body =
     addNutrition e store user (Spec.withFat (VNum (num 0)) body)) ∧
  (∀ (userId food : string) (calories : Qc),
     user = Some userId → nb_food body = Some food →
     trim food ≠ ""%string → (String.length (trim food) ≤ 200)%nat →
     nb_calories body = VNum (Fin calories) →
     0 < calories → calories ≤ Qc_of_Z 10000 →
     le (validatedMacro (nb_protein body)) (num 1000) = true →
     le (validatedMacro (nb_carbs body)) (num 1000) = true →
     le (validatedMacro (nb_fat body)) (num 1000) = true →
     let doc := {| n_id := nextId e; n_userId := userId; n_food := trim food;
                   n_calories := Fin calories;
                   n_protein := validatedMacro (nb_protein body);
                   n_carbs := validatedMacro (nb_carbs body);
                   n_fat := validatedMacro (nb_fat body);
                   n_date := default (now e) (nb_date body) |} in
     addNutrition e store user body = (Response 201 (nutrition_toJSON doc), store ++ [doc])) ∧
  (nb_calories body = VUndefined ∨ nb_calories body = VNull ∨
   lt (ToNumber (nb_calories body)) (num 0) = true →
   status (addNutrition e store user body).1 = 400%nat ∧
   (addNutrition e store user body).2 = store).
Proof.
  split; [| split; [| split; [| split]]].
  - intros Hbad. by clamp Hbad.
  - intros Hbad. by clamp Hbad.
  - intros Hbad. by clamp Hbad.
  - intros userId food calories -> Hfood Htrim Hlen Hcal Hpos Hmax Hp Hc Hf doc.
    unfold addNutrition. rewrite Hfood, Hcal.
    assert (truthyString (Some (trim food)) = true) as -> by (by destruct (trim food)).
    assert (truthyString (Some food) = true) as ->.
    { destruct food; [by destruct Htrim | done]. }
    rewrite ToBoolean_pos by done. cbn [negb orb isNaN ToNumber].
    assert (lt (Fin calories) (num 0) = false) as ->.
    { unfold lt, num. rewrite Z2Qc_inj_0. apply bool_decide_eq_false_2.
      intros Hneg. apply (Qclt_not_eq 0 0); [| done]. by apply (Qclt_trans _ calories). }
    unfold nutrition_create, nutrition_validate.
    cbn [n_food n_calories n_protein n_carbs n_fat].
    rewrite bool_decide_eq_false_2 by lia.
    assert (Hhi : le (Fin calories) (num 10000) = true).
    { unfold le, lt, strictEq, num. apply orb_true_iff.
      destruct (decide (calories = Qc_of_Z 10000)) as [-> | Hne].
      - right. by apply bool_decide_eq_true_2.
      - left. apply bool_decide_eq_true_2. by apply Qcle_lt_or_eq in Hmax as [? | ?]. }
    assert (Hlo : ge (Fin calories) (num 0) = true).
    { unfold ge, le, lt, num. rewrite Z2Qc_inj_0.
      by rewrite (bool_decide_eq_true_2 (0 < calories)). }
    rewrite !checkRange_ok by (done || apply validatedMacro_nonneg).
    reflexivity.
  - intros Hcal. unfold addNutrition.
    destruct (nb_food body) as [food |]; [| done].
    destruct (negb (truthyString (Some food)) || _); [done |].
    assert (negb (ToBoolean (nb_calories body)) || isNaN (nb_calories body)
            || lt (ToNumber (nb_calories body)) (num 0) = true) as ->; [| done].
    destruct Hcal as [-> | [-> | ->]]; [done | done | apply orb_true_r].
Qed.

Example nutrition_negative_protein :
  let body := {| nb_food := Some "  boiled egg "%string; nb_calories := VNum (num 78);
                 nb_date := None; nb_protein := VNum (num (-6));
                 nb_carbs := VUndefined; nb_fat := VNum NaN |} in
  let doc := {| n_id := nextId Examples.server; n_userId := Examples.alice;
                n_food := "boiled egg"; n_calories := num 78;
                n_protein := num 0; n_carbs := num 0; n_fat := num 0;
                n_date := now Examples.server |} in
  addNutrition Examples.server Examples.meals (Some Examples.alice) body =
    (Response 201 (nutrition_toJSON doc), Examples.meals ++ [doc]).
Proof. reflexivity. Qed.

Example nutrition_negative_calories :
  addNutrition Examples.server Examples.meals (Some Examples.alice)
    {| nb_food := Some "boiled egg"%string; nb_calories := VNum (num (-78));
       nb_date := None; nb_protein := VNum (num 6);
       nb_carbs := VNum (num 1); nb_fat := VNum (num 5) |} =
    (message 400 "Valid calories value is required", Examples.meals).
Proof. reflexivity. Qed.

End NutritionValidation.

(** * Further properties of the handlers *)

(** ** Queries: the latest entry, sorted listings *)

Section Queries.

Context {D : Type} `{Dated D}.

Lemma elem_of_List_filter (f : D → bool) (l : list D) (x : D) :
  x ∈ List.filter f l ↔ x ∈ l ∧ f x = true.
Proof. rewrite !list_elem_of_In. apply filter_In. Qed.

Lemma foldl_later (l : list D) (best : option D) :
  match foldl later best l with
  | None => best = None ∧ l = []
  | Some p =>
      (best = Some p ∨ p ∈ l) ∧
      (∀ b, best = Some b → date_of b ≤ date_of p) ∧
      (∀ q, q ∈ l → date_of q ≤ date_of p)
  end.
Proof.
  revert best. induction l as [| d l IH]; intros best; cbn [foldl].
  - destruct best as [b |]; [| done]. split; [by left |]. split.
    + by intros ? [= ->].
    + intros q Hq. by apply elem_of_nil in Hq.
  - specialize (IH (later best d)). destruct (foldl later (later best d) l) as [p |].
    + destruct IH as (Hin & Hbest & Hall). unfold later in Hin, Hbest.
      destruct best as [b |]; [case_bool_decide as Hlt |].
      * split; [| split].
        -- right. destruct Hin as [[= ->] | ?]; [apply list_elem_of_here |].
           by apply list_elem_of_further.
        -- intros ? [= <-]. specialize (Hbest d eq_refl). lia.
        -- intros q [-> | Hq]%elem_of_cons; [by apply Hbest | by apply Hall].
      * split; [| split].
        -- destruct Hin as [? | ?]; [by left | right; by apply list_elem_of_further].
        -- done.
        -- intros q [-> | Hq]%elem_of_cons; [| by apply Hall].
           specialize (Hbest b eq_refl). lia.
      * split; [| split].
        -- right. destruct Hin as [[= ->] | ?]; [apply list_elem_of_here |].
           by apply list_elem_of_further.
        -- done.
        -- intros q [-> | Hq]%elem_of_cons; [by apply Hbest | by apply Hall].
    + destruct IH as [Hbest _]. unfold later in Hbest.
      destruct best as [b |]; [case_bool_decide |]; discriminate.
Qed.

(** [findLatest] finds no entry exactly when the user has none, and
    otherwise an entry of the user that no other entry of the user is
    later than. *)
Lemma findLatest_spec (user_of : D → string) (userId : string) (store : list D) :
  match findLatest user_of userId store with
  | None => ∀ p, p ∈ store → user_of p ≠ userId
  | Some p =>
      p ∈ store ∧ user_of p = userId ∧
      ∀ q, q ∈ store → user_of q = userId → date_of q ≤ date_of p
  end.
Proof.
  unfold findLatest.
  pose proof (foldl_later (List.filter (λ d, bool_decide (user_of d = userId)) store) None) as Hl.
  destruct (foldl later None _) as [p |].
  - destruct Hl as ([? | Hin] & _ & Hall); [done |].
    apply elem_of_List_filter in Hin as [Hin Hu]. apply bool_decide_eq_true_1 in Hu.
    repeat split; try done. intros q Hq Hqu. apply Hall, elem_of_List_filter.
    split; [done | by apply bool_decide_eq_true_2].
  - destruct Hl as [_ Hnil]. intros p Hp Hu.
    assert (p ∈ List.filter (λ d, bool_decide (user_of d = userId)) store) as Hin.
    { apply elem_of_List_filter. split; [done | by apply bool_decide_eq_true_2]. }
    rewrite Hnil in Hin. by apply elem_of_nil in Hin.
Qed.

Lemma insertByDateDesc_perm (d : D) (l : list D) : insertByDateDesc d l ≡ₚ d :: l.
Proof.
  induction l as [| x l IH]; cbn; [done |].
  case_bool_decide; [done |]. rewrite IH. apply Permutation_swap.
Qed.

Lemma sortByDateDesc_perm (l : list D) : sortByDateDesc l ≡ₚ l.
Proof.
  induction l as [| x l IH]; [done |].
  change (sortByDateDesc (x :: l)) with (insertByDateDesc x (sortByDateDesc l)).
  by rewrite insertByDateDesc_perm, IH.
Qed.

Lemma insertByDateDesc_sorted (d : D) (l : list D) :
  Sorted (λ a b, date_of b ≤ date_of a) l →
  Sorted (λ a b, date_of b ≤ date_of a) (insertByDateDesc d l).
Proof.
  induction 1 as [| x l Hl IH Hx]; cbn.
  - by repeat constructor.
  - case_bool_decide as Hd.
    + constructor; [by constructor |]. by constructor.
    + constructor; [done |]. destruct Hx as [| y l Hxy]; cbn.
      * constructor. lia.
      * case_bool_decide; constructor; [lia | done].
Qed.

Lemma sortByDateDesc_sorted (l : list D) :
  Sorted (λ a b, date_of b ≤ date_of a) (sortByDateDesc l).
Proof.
  induction l as [| x l IH]; [constructor |].
  change (sortByDateDesc (x :: l)) with (insertByDateDesc x (sortByDateDesc l)).
  by apply insertByDateDesc_sorted.
Qed.

Lemma findByUser_spec (user_of : D → string) (userId : string) (store : list D) :
  findByUser user_of userId store ≡ₚ filter (λ d, user_of d = userId) store ∧
  Sorted (λ a b, date_of b ≤ date_of a) (findByUser user_of userId store).
Proof.
  unfold findByUser. split; [| apply sortByDateDesc_sorted].
  rewrite sortByDateDesc_perm.
  induction store as [| d store IH]; [done |]. cbn [List.filter].
  rewrite (filter_cons (λ d, user_of d = userId)).
  case_bool_decide; rewrite ?decide_True, ?decide_False by done; by rewrite IH.
Qed.

End Queries.

Section Listings.

(** X1. [getLatestWeight] (and the schema's [getLatestEntry], which it
    duplicates) returns [null] exactly when the user has no progress entry;
    otherwise it returns the weight of an entry of that user than which no
    entry of the user is later. *)
Theorem getLatestWeight_latest (progresses : list progress) (userId : string) :
  (getLatestWeight progresses userId = VNull ↔
   ∀ p, p ∈ progresses → p_userId p ≠ userId) ∧
  (∀ v, getLatestWeight progresses userId = v → v ≠ VNull →
     ∃ p, Schema.getLatestEntry progresses userId = Some p ∧ v = VNum (p_weight p) ∧
          p ∈ progresses ∧ p_userId p = userId ∧
          ∀ q, q ∈ progresses → p_userId q = userId → p_date q ≤ p_date p).
Proof.
  unfold getLatestWeight, Schema.getLatestEntry.
  pose proof (findLatest_spec p_userId userId progresses) as Hl.
  destruct (findLatest p_userId userId progresses) as [p |].
  - destruct Hl as (Hin & Hu & Hmax). split.
    + split; [done |]. intros Hnone. by destruct (Hnone p Hin).
    + intros v <- _. by exists p.
  - split; [done |]. by intros v <- ?.
Qed.

(** X2. The list endpoints [getWorkouts], [getProgress] and [getNutrition]
    (without a date) send exactly the caller's documents, each once, newest
    first. *)
Theorem listings_newest_first (userId : string) :
  (∀ store : list workout, ∃ l,
     getWorkouts store (Some userId) = Response 200 (JArr (workout_toJSON <$> l)) ∧
     l ≡ₚ filter (λ w, w_userId w = userId) store ∧
     Sorted (λ a b, w_date b ≤ w_date a) l) ∧
  (∀ store : list progress, ∃ l,
     getProgress store (Some userId) = Response 200 (JArr (progress_toJSON <$> l)) ∧
     l ≡ₚ filter (λ p, p_userId p = userId) store ∧
     Sorted (λ a b, p_date b ≤ p_date a) l) ∧
  (∀ (e : env) (store : list nutrition), ∃ l,
     getNutrition e store (Some userId) None = Response 200 (JArr (nutrition_toJSON <$> l)) ∧
     l ≡ₚ filter (λ n, n_userId n = userId) store ∧
     Sorted (λ a b, n_date b ≤ n_date a) l).
Proof.
  repeat split.
  - intros store. eexists. split; [reflexivity |].
    apply (findByUser_spec (D := workout)).
  - intros store. eexists. split; [reflexivity |].
    apply (findByUser_spec (D := progress)).
  - intros e store. eexists. split; [reflexivity |].
    apply (findByUser_spec (D := nutrition)).
Qed.

End Listings.

(** ** Looking up and deleting by id *)

Section Lookup.

Context {D : Type} (id_of : D → string).

Lemma findById_Some (id : string) (store : list D) (d : D) :
  findById id_of id store = Some d → d ∈ store ∧ id_of d = id.
Proof.
  unfold findById. intros Hfind. apply find_some in Hfind as [Hin Hid].
  split; [by apply list_elem_of_In | by apply bool_decide_eq_true_1 in Hid].
Qed.

Lemma findById_None (id : string) (store : list D) :
  findById id_of id store = None ↔ ∀ d, d ∈ store → id_of d ≠ id.
Proof.
  unfold findById. split.
  - intros Hnone d Hd Hid. apply list_elem_of_In in Hd.
    eapply find_none in Hnone; [| exact Hd]. cbn beta in Hnone.
    by rewrite bool_decide_eq_true_2 in Hnone.
  - intros Hall. induction store as [| d store IH]; [done |]. cbn [List.find].
    rewrite bool_decide_eq_false_2 by (apply Hall, list_elem_of_here).
    apply IH. intros d' Hd'. by apply Hall, list_elem_of_further.
Qed.

Lemma elem_of_findByIdAndDelete (id : string) (store : list D) (d : D) :
  d ∈ findByIdAndDelete id_of id store ↔ d ∈ store ∧ id_of d ≠ id.
Proof.
  unfold findByIdAndDelete. rewrite !list_elem_of_In, filter_In.
  by rewrite negb_true_iff, bool_decide_eq_false.
Qed.

Lemma findById_deleted (id : string) (store : list D) :
  findById id_of id (findByIdAndDelete id_of id store) = None.
Proof. apply findById_None. by intros d [_ Hd]%elem_of_findByIdAndDelete. Qed.

Lemma findById_delete_other (id id' : string) (store : list D) :
  id' ≠ id →
  findById id_of id' (findByIdAndDelete id_of id store) = findById id_of id' store.
Proof.
  intros Hne. unfold findById, findByIdAndDelete.
  induction store as [| d store IH]; [done |]. cbn [List.filter List.find].
  case_bool_decide as Hid; cbn [negb List.find].
  - rewrite bool_decide_eq_false_2 by congruence. exact IH.
  - case_bool_decide; [done | exact IH].
Qed.

Lemma findByIdAndDelete_fresh (id : string) (store : list D) :
  (∀ d, d ∈ store → id_of d ≠ id) → findByIdAndDelete id_of id store = store.
Proof.
  intros Hall. unfold findByIdAndDelete.
  induction store as [| d store IH]; [done |]. cbn [List.filter].
  rewrite bool_decide_eq_false_2 by (apply Hall, list_elem_of_here). cbn [negb].
  f_equal. apply IH. intros d' Hd'. by apply Hall, list_elem_of_further.
Qed.

Lemma findByIdAndDelete_snoc (id : string) (store : list D) (d : D) :
  id_of d = id → (∀ d', d' ∈ store → id_of d' ≠ id) →
  findByIdAndDelete id_of id (store ++ [d]) = store.
Proof.
  intros Hid Hall. unfold findByIdAndDelete. rewrite List.filter_app. cbn [List.filter].
  rewrite bool_decide_eq_true_2 by done. cbn [negb]. rewrite app_nil_r.
  by apply findByIdAndDelete_fresh.
Qed.

Lemma findById_snoc (id : string) (store : list D) (d : D) :
  id_of d = id → (∀ d', d' ∈ store → id_of d' ≠ id) →
  findById id_of id (store ++ [d]) = Some d.
Proof.
  intros Hid Hall. unfold findById.
  induction store as [| d' store IH]; cbn [app List.find].
  - by rewrite bool_decide_eq_true_2.
  - rewrite bool_decide_eq_false_2 by (apply Hall, list_elem_of_here).
    apply IH. intros d'' Hd''. by apply Hall, list_elem_of_further.
Qed.

Lemma length_findByIdAndDelete (id : string) (store : list D) (d : D) :
  findById id_of id store = Some d →
  (length (findByIdAndDelete id_of id store) < length store)%nat.
Proof.
  unfold findById, findByIdAndDelete.
  induction store as [| d' store IH]; [done |]. cbn [List.find List.filter].
  case_bool_decide; cbn [negb length].
  - intros _. pose proof (List.filter_length_le (λ d, negb (bool_decide (id_of d = id))) store).
    lia.
  - intros Hfind. specialize (IH Hfind). lia.
Qed.

End Lookup.

Section Deleting.

(** X3. A delete request of the owner is answered 200 with the id, and
    removes exactly the record of that id: the id is no longer found, every
    other id is found as before, the collection is shorter, and a second
    delete of the same id is answered "not found" (400 for workouts and
    progress entries, 404 for nutrition entries). *)
Theorem delete_by_owner (userId id : string) :
  (∀ (store : list workout) (w : workout),
     findById w_id id store = Some w → w_userId w = userId →
     let result := deleteWorkout store (Some userId) id in
     result.1 = Response 200 (JObj [("id", JStr id)]%string) ∧
     findById w_id id result.2 = None ∧
     (∀ id', id' ≠ id → findById w_id id' result.2 = findById w_id id' store) ∧
     (∀ d, d ∈ result.2 ↔ d ∈ store ∧ w_id d ≠ id) ∧
     (length result.2 < length store)%nat ∧
     deleteWorkout result.2 (Some userId) id = (message 400 "Workout not found", result.2)) ∧
  (∀ (store : list nutrition) (n : nutrition),
     findById n_id id store = Some n → n_userId n = userId →
     let result := deleteNutrition store (Some userId) id in
     result.1 = Response 200 (JObj [("id", JStr id)]%string) ∧
     findById n_id id result.2 = None ∧
     (∀ id', id' ≠ id → findById n_id id' result.2 = findById n_id id' store) ∧
     (∀ d, d ∈ result.2 ↔ d ∈ store ∧ n_id d ≠ id) ∧
     (length result.2 < length store)%nat ∧
     deleteNutrition result.2 (Some userId) id =
       (message 404 "Nutrition entry not found", result.2)) ∧
  (∀ (store : list progress) (p : progress),
     findById p_id id store = Some p → p_userId p = userId →
     let result := deleteProgress store (Some userId) id in
     result.1 = Response 200 (JObj [("id", JStr id)]%string) ∧
     findById p_id id result.2 = None ∧
     (∀ id', id' ≠ id → findById p_id id' result.2 = findById p_id id' store) ∧
     (∀ d, d ∈ result.2 ↔ d ∈ store ∧ p_id d ≠ id) ∧
     (length result.2 < length store)%nat ∧
     deleteProgress result.2 (Some userId) id =
       (message 400 "Progress entry not found", result.2)).
Proof.
  split; [| split].
  - intros store w Hfind Hu. cbv zeta.
    assert (deleteWorkout store (Some userId) id =
            (Response 200 (JObj [("id", JStr id)]%string), findByIdAndDelete w_id id store)) as ->.
    { unfold deleteWorkout. by rewrite Hfind, bool_decide_eq_true_2. }
    cbn [fst snd].
    split; [done |]. split; [apply findById_deleted |].
    split; [intros id' Hne; by apply findById_delete_other |].
    split; [intros d; apply elem_of_findByIdAndDelete |].
    split; [by eapply length_findByIdAndDelete |].
    unfold deleteWorkout. by rewrite findById_deleted.
  - intros store n Hfind Hu. cbv zeta.
    assert (deleteNutrition store (Some userId) id =
            (Response 200 (JObj [("id", JStr id)]%string), findByIdAndDelete n_id id store)) as ->.
    { unfold deleteNutrition. by rewrite Hfind, bool_decide_eq_true_2. }
    cbn [fst snd].
    split; [done |]. split; [apply findById_deleted |].
    split; [intros id' Hne; by apply findById_delete_other |].
    split; [intros d; apply elem_of_findByIdAndDelete |].
    split; [by eapply length_findByIdAndDelete |].
    unfold deleteNutrition. by rewrite findById_deleted.
  - intros store p Hfind Hu. cbv zeta.
    assert (deleteProgress store (Some userId) id =
            (Response 200 (JObj [("id", JStr id)]%string), findByIdAndDelete p_id id store)) as ->.
    { unfold deleteProgress. by rewrite Hfind, bool_decide_eq_true_2. }
    cbn [fst snd].
    split; [done |]. split; [apply findById_deleted |].
    split; [intros id' Hne; by apply findById_delete_other |].
    split; [intros d; apply elem_of_findByIdAndDelete |].
    split; [by eapply length_findByIdAndDelete |].
    unfold deleteProgress. by rewrite findById_deleted.
Qed.

End Deleting.

(** ** Creating records *)

Section Creating.

Local Open Scope Qc_scope.





Lemma ge_Fin_inv (x : number) (lo : Qc) :
  ge x (Fin lo) = true → x = PInf ∨ ∃ q, x = Fin q ∧ lo ≤ q.
Proof.
  unfold ge, le, lt, strictEq. destruct x as [| | | q]; try done; [by left |].
  intros Hq. right. exists q. split; [done |].
  apply orb_true_iff in Hq as [Hq | Hq]; apply bool_decide_eq_true_1 in Hq.
  - by apply Qclt_le_weak.
  - subst. apply Qcle_refl.
Qed.

Lemma le_Fin_inv (x : number) (hi : Qc) :
  le x (Fin hi) = true → x = NInf ∨ ∃ q, x = Fin q ∧ q ≤ hi.
Proof.
  unfold le, lt, strictEq. destruct x as [| | | q]; try done; [by left |].
  intros Hq. right. exists q. split; [done |].
  apply orb_true_iff in Hq as [Hq | Hq]; apply bool_decide_eq_true_1 in Hq.
  - by apply Qclt_le_weak.
  - subst. apply Qcle_refl.
Qed.


Lemma checkMin_nil (show : number → string) (path : string) (v : value) (lo : Z) :
  checkMin show path v lo = [] →
  v = VUndefined ∨ v = VNull ∨ ge (ToNumber v) (num lo) = true.
Proof.
  unfold checkMin. destruct v as [| | x | name]; [by left | by right; left | |].
  - cbn [ToNumber]. destruct x as [| | | q]; try done; try (by right; right).
    destruct (ge (Fin q) (num lo)); [by right; right | done].
  - done.
Qed.

Lemma setWorkout_created (show : number → string) (e : env) (progresses : list progress)
    (store : list workout) (user : option string) (body : updateBody) :
  let result := setWorkout show e progresses store user body in
  (status result.1 ≠ 201%nat ∧ result.2 = store) ∨
  ∃ userId type finalWeight finalCalories,
    user = Some userId ∧ b_type body = Some type ∧
    ToBoolean (b_duration body) = true ∧ ToBoolean finalCalories = true ∧
    ((ToBoolean (b_calories body) = true ∧
      finalWeight = b_weight body ∧ finalCalories = b_calories body) ∨
     (ToBoolean (b_calories body) = false ∧
      finalWeight = (if ToBoolean (b_weight body) then b_weight body
                     else getLatestWeight progresses userId) ∧
      ToBoolean finalWeight = true ∧
      finalCalories = calculateCalories type (b_duration body) finalWeight)) ∧
    let doc := {| w_id := nextId e; w_userId := userId; w_type := trim type;
                  w_duration := b_duration body; w_weight := finalWeight;
                  w_calories := finalCalories;
                  w_date := default (now e) (b_date body) |} in
    workout_validate show doc = [] ∧
    result = (Response 201 (workout_toJSON doc), store ++ [doc]).
Proof.
  cbv zeta. unfold setWorkout.
  destruct (b_type body) as [[| c type] |] eqn:Htype; cbn [truthyString negb orb];
    [by left | | by left].
  destruct (ToBoolean (b_duration body)) eqn:Hduration; cbn [negb]; [| by left].
  cbn [default].
  destruct (ToBoolean (b_calories body)) eqn:Hcalories; cbn [negb].
  - rewrite Hcalories. cbn [negb]. destruct user as [userId |]; [| by left].
    unfold workout_create. destruct (workout_validate show _) eqn:Hvalid; [| by left].
    right. exists userId, (String c type), (b_weight body), (b_calories body).
    repeat split; try done. by left.
  - destruct (ToBoolean (b_weight body)) eqn:Hweight; cbn [negb].
    + destruct (ToBoolean (calculateCalories _ _ _)) eqn:Hderived; [| by left].
      rewrite Hderived. cbn [negb]. destruct user as [userId |]; [| by left].
      unfold workout_create. destruct (workout_validate show _) eqn:Hvalid; [| by left].
      right.
      exists userId, (String c type), (b_weight body),
        (calculateCalories (String c type) (b_duration body) (b_weight body)).
      repeat split; try done. by right.
    + destruct user as [userId |]; [| by left].
      destruct (ToBoolean (getLatestWeight progresses userId)) eqn:Hlatest; cbn [negb];
        [| by left].
      destruct (ToBoolean (calculateCalories _ _ _)) eqn:Hderived; [| by left].
      rewrite Hderived. cbn [negb].
      unfold workout_create. destruct (workout_validate show _) eqn:Hvalid; [| by left].
      right.
      exists userId, (String c type), (getLatestWeight progresses userId),
        (calculateCalories (String c type) (b_duration body)
           (getLatestWeight progresses userId)).
      repeat split; try done. by right.
Qed.

End Creating.

Section Logging.

Local Open Scope Qc_scope.





Example workout_from_latest_weight :
  (setWorkout (toFixed 0) Examples.server Examples.weights Examples.workouts
     (Some Examples.alice)
     {| b_type := Some "Running"%string; b_duration := VNum (num 30);
        b_weight := VUndefined; b_calories := VUndefined;
        b_date := None; b_userId := None |}).2 =
  Examples.workouts ++
    [ {| w_id := nextId Examples.server; w_userId := Examples.alice; w_type := "Running";
         w_duration := VNum (num 30); w_weight := VNum (num 72);
         w_calories := VNum (num 353); w_date := now Examples.server |} ].
Proof. reflexivity. Qed.

Example workout_too_short :
  setWorkout (toFixed 0) Examples.server Examples.weights Examples.workouts
    (Some Examples.alice)
    {| b_type := Some "walking"%string; b_duration := VNum (num 1);
       b_weight := VNum (num 5); b_calories := VUndefined;
       b_date := None; b_userId := None |} =
  (message 400 "Cannot auto-calculate calories for this workout type. Please enter calories manually.",
   Examples.workouts).
Proof. reflexivity. Qed.

End Logging.

Section StoredWorkouts.

Lemma checkMin_truthy (show : number → string) (path : string) (v : value) (lo : Z) :
  checkMin show path v lo = [] → ToBoolean v = true → ge (ToNumber v) (num lo) = true.
Proof.
  intros Hnil Htrue. apply checkMin_nil in Hnil as [-> | [-> | Hge]]; done.
Qed.

Lemma workout_validate_nil (show : number → string) (w : workout) :
  workout_validate show w = [] → ToBoolean (w_calories w) = true → Spec.validWorkout w.
Proof.
  unfold workout_validate. intros Hnil Hcalories.
  apply app_eq_nil in Hnil as [Htype Hnil]. apply app_eq_nil in Hnil as [Hduration Hnil].
  apply app_eq_nil in Hnil as [Hweight Hnil].
  split; [by destruct (w_type w) |]. split; [| split].
  - destruct (w_duration w) as [| | x | name] eqn:E; try done.
    apply checkMin_nil in Hduration as [? | [? | ?]]; done.
  - by eapply checkMin_truthy.
  - by eapply checkMin_nil.
Qed.

(** X5. [setWorkout] either answers 201 and appends one workout, or leaves
    the collection as it was.  The workout it appends carries the fresh id
    and the caller as owner, the trimmed type and the duration of the body,
    and is valid: a non-empty type, duration and calories of at least 1, a
    weight that is absent or at least 1.  Calories of the body are stored
    as given; otherwise the stored calories are the ones derived from the
    stored duration and weight, that weight being the body's or else the
    caller's latest.  So workouts logged through [setWorkout] stay valid. *)
Theorem setWorkout_stores_valid (show : number → string) (e : env)
    (progresses : list progress) (store : list workout) (user : option string)
    (body : updateBody) :
  let result := setWorkout show e progresses store user body in
  (Forall Spec.validWorkout store → Forall Spec.validWorkout result.2) ∧
  ((status result.1 ≠ 201%nat ∧ result.2 = store) ∨
   ∃ doc type,
     result = (Response 201 (workout_toJSON doc), store ++ [doc]) ∧
     Spec.validWorkout doc ∧
     w_id doc = nextId e ∧ user = Some (w_userId doc) ∧
     b_type body = Some type ∧ w_type doc = trim type ∧
     w_duration doc = b_duration body ∧
     w_date doc = default (now e) (b_date body) ∧
     (ToBoolean (b_calories body) = true →
      w_calories doc = b_calories body ∧ w_weight doc = b_weight body) ∧
     (ToBoolean (b_calories body) = false →
      w_calories doc = calculateCalories type (w_duration doc) (w_weight doc) ∧
      ge (ToNumber (w_weight doc)) (num 1) = true ∧
      w_weight doc = if ToBoolean (b_weight body) then b_weight body
                     else getLatestWeight progresses (w_userId doc))).
Proof.
  cbv zeta. pose proof (setWorkout_created show e progresses store user body) as Hcreated.
  cbv zeta in Hcreated.
  destruct Hcreated as [[Hstatus Hstore] |
    (userId & type & finalWeight & finalCalories & -> & Htype & Hduration & Hfinal &
     Hcases & Hvalid & ->)].
  - split; [by rewrite Hstore | by left].
  - cbn [fst snd].
    pose proof (workout_validate_nil show _ Hvalid Hfinal) as Hdoc.
    split; [intros Hall; apply Forall_app; split; [done | by constructor] |].
    right. eexists _, type. split; [reflexivity |]. cbn [w_id w_userId w_type w_duration
      w_weight w_calories w_date].
    do 7 (split; [done |]).
    destruct Hcases as [(Hc & -> & ->) | (Hc & Hw & Htruthy & ->)].
    + split; [done |]. intros Hno. by rewrite Hc in Hno.
    + split; [intros Hyes; by rewrite Hc in Hyes |]. intros _.
      split; [done |]. split; [| done].
      unfold workout_validate in Hvalid. cbn [w_weight] in Hvalid.
      apply app_eq_nil in Hvalid as [_ Hvalid]. apply app_eq_nil in Hvalid as [_ Hvalid].
      apply app_eq_nil in Hvalid as [Hvalid _]. by eapply checkMin_truthy.
Qed.

End StoredWorkouts.

Section StoredEntries.

Local Open Scope Qc_scope.

Lemma checkRange_nil (path : string) (x : number) (lo hi : Z) (tooLow tooHigh : string) :
  checkRange path x lo hi tooLow tooHigh = [] →
  ∃ q : Qc, x = Fin q ∧ Qc_of_Z lo ≤ q ∧ q ≤ Qc_of_Z hi.
Proof.
  unfold checkRange. destruct (ge x (num lo)) eqn:Hlo; [| done].
  destruct (le x (num hi)) eqn:Hhi; [| done]. intros _.
  apply ge_Fin_inv in Hlo as [-> | (q & -> & Hlo)]; [done |].
  apply le_Fin_inv in Hhi as [? | (q' & [= <-] & Hhi)]; [done |].
  by exists q.
Qed.

Lemma addProgress_created (e : env) (store : list progress) (user : option string)
    (weight : value) (date : option Z) :
  let result := addProgress e store user weight date in
  (status result.1 ≠ 201%nat ∧ result.2 = store) ∨
  ∃ userId,
    user = Some userId ∧
    let doc := Progress (nextId e) userId (ToNumber weight) (default (now e) date) in
    progress_validate doc = [] ∧ existingEntry e doc store = None ∧
    result = (Response 201 (progress_toJSON doc), store ++ [doc]).
Proof.
  cbv zeta. unfold addProgress. destruct (ToBoolean weight); cbn [negb]; [| by left].
  destruct user as [userId |]; [| by left].
  unfold progress_create. destruct (progress_validate _) eqn:Hvalid; [| by left].
  destruct (existingEntry e _ store) eqn:Hexisting; [by left |].
  right. by exists userId.
Qed.

Lemma addNutrition_created (e : env) (store : list nutrition) (user : option string)
    (body : nutritionBody) :
  let result := addNutrition e store user body in
  (status result.1 ≠ 201%nat ∧ result.2 = store) ∨
  ∃ userId food,
    user = Some userId ∧ nb_food body = Some food ∧ trim food ≠ EmptyString ∧
    Client.noCalories (nb_calories body) = false ∧
    let doc := {| n_id := nextId e; n_userId := userId; n_food := trim food;
                  n_calories := ToNumber (nb_calories body);
                  n_protein := validatedMacro (nb_protein body);
                  n_carbs := validatedMacro (nb_carbs body);
                  n_fat := validatedMacro (nb_fat body);
                  n_date := default (now e) (nb_date body) |} in
    nutrition_validate doc = [] ∧
    result = (Response 201 (nutrition_toJSON doc), store ++ [doc]).
Proof.
  cbv zeta. unfold addNutrition. destruct (nb_food body) as [food |] eqn:Hfood; [| by left].
  destruct (negb (truthyString (Some food)) || negb (truthyString (Some (trim food))))
    eqn:Hname; [by left |].
  fold (Client.noCalories (nb_calories body)).
  destruct (Client.noCalories (nb_calories body)) eqn:Hcalories; [by left |].
  destruct user as [userId |]; [| by left].
  unfold nutrition_create. destruct (nutrition_validate _) eqn:Hvalid; [| by left].
  right. exists userId, food. repeat split; try done.
  apply orb_false_iff in Hname as [_ Hname]. intros Hempty. by rewrite Hempty in Hname.
Qed.

(** X6. [addProgress] stores weights from 20 to 500 kg only: a request
    either is answered 201 and appends one entry, of the caller, with the
    fresh id, the date of the body or else the current instant, and a
    weight in that range, or it leaves the collection as it was. *)
Theorem addProgress_weight_range (e : env) (store : list progress)
    (user : option string) (weight : value) (date : option Z) :
  let result := addProgress e store user weight date in
  (Forall Spec.validWeight store → Forall Spec.validWeight result.2) ∧
  ((status result.1 ≠ 201%nat ∧ result.2 = store) ∨
   ∃ (userId : string) (q : Qc),
     user = Some userId ∧ ToNumber weight = Fin q ∧
     Qc_of_Z 20 ≤ q ∧ q ≤ Qc_of_Z 500 ∧
     result = (Response 201 (progress_toJSON (Progress (nextId e) userId (Fin q)
                                                (default (now e) date))),
               store ++ [Progress (nextId e) userId (Fin q) (default (now e) date)])).
Proof.
  cbv zeta. pose proof (addProgress_created e store user weight date) as Hcreated.
  cbv zeta in Hcreated.
  destruct Hcreated as [[Hstatus Hstore] | (userId & -> & Hvalid & _ & ->)].
  - split; [by rewrite Hstore | by left].
  - unfold progress_validate in Hvalid. cbn [p_weight] in Hvalid.
    apply checkRange_nil in Hvalid as (q & Hq & Hlo & Hhi). rewrite Hq. cbn [fst snd].
    split.
    + intros Hall. apply Forall_app. split; [done |]. constructor; [| done].
      by exists q.
    + right. by exists userId, q.
Qed.

Lemma nutrition_validate_nil (n : nutrition) :
  nutrition_validate n = [] → n_food n ≠ EmptyString →
  n_calories n ≠ num 0 → Spec.validEntry n.
Proof.
  unfold nutrition_validate. intros Hnil Hfood Hcalories.
  apply app_eq_nil in Hnil as [Hlength Hnil]. apply app_eq_nil in Hnil as [Hc Hnil].
  apply app_eq_nil in Hnil as [Hp Hnil]. apply app_eq_nil in Hnil as [Hcarbs Hfat].
  split; [done |]. split; [| split; [| split; [| split]]].
  - case_bool_decide; [done | lia].
  - apply checkRange_nil in Hc as (c & Hc & Hlo & Hhi). exists c.
    split; [done |]. split; [| done]. rewrite Z2Qc_inj_0 in Hlo.
    apply Qcle_lt_or_eq in Hlo as [? | <-]; [done |].
    destruct Hcalories. rewrite Hc. unfold num. by rewrite Z2Qc_inj_0.
  - apply checkRange_nil in Hp as (q & ? & Hlo & ?). exists q. by rewrite <- Z2Qc_inj_0.
  - apply checkRange_nil in Hcarbs as (q & ? & Hlo & ?). exists q. by rewrite <- Z2Qc_inj_0.
  - apply checkRange_nil in Hfat as (q & ? & Hlo & ?). exists q. by rewrite <- Z2Qc_inj_0.
Qed.

Lemma noCalories_false (calories : value) :
  Client.noCalories calories = false → ToNumber calories ≠ num 0.
Proof.
  unfold Client.noCalories. intros Hno Hzero.
  apply orb_false_iff in Hno as [Hno _]. apply orb_false_iff in Hno as [Hno _].
  apply negb_false_iff in Hno.
  destruct calories as [| | x |]; try done. cbn [ToNumber] in Hzero. by subst x.
Qed.

Lemma validEntry_finite (n : nutrition) : Spec.validEntry n → Spec.finiteMacros n.
Proof.
  intros (_ & _ & _ & (p & Hp & _) & (c & Hc & _) & (f & Hf & _)).
  unfold Spec.finiteMacros. by rewrite Hp, Hc, Hf.
Qed.

(** X7. [addNutrition] stores valid entries only: a request either is
    answered 201 and appends one entry, of the caller, with the fresh id,
    or it leaves the collection as it was; the entry it appends has a
    trimmed, non-empty food name of at most 200 characters, calories above
    0 and at most 10000, and macros from 0 to 1000 g.  A collection filled
    through [addNutrition] therefore holds finite macros only. *)
Theorem addNutrition_stores_valid (e : env) (store : list nutrition)
    (user : option string) (body : nutritionBody) :
  let result := addNutrition e store user body in
  (Forall Spec.validEntry store →
   Forall Spec.validEntry result.2 ∧ Forall Spec.finiteMacros result.2) ∧
  ((status result.1 ≠ 201%nat ∧ result.2 = store) ∨
   ∃ (doc : nutrition) (food : string),
     result = (Response 201 (nutrition_toJSON doc), store ++ [doc]) ∧
     Spec.validEntry doc ∧
     n_id doc = nextId e ∧ user = Some (n_userId doc) ∧
     nb_food body = Some food ∧ n_food doc = trim food ∧
     n_calories doc = ToNumber (nb_calories body) ∧
     n_date doc = default (now e) (nb_date body)).
Proof.
  cbv zeta. pose proof (addNutrition_created e store user body) as Hcreated.
  cbv zeta in Hcreated.
  assert (Hfinite : ∀ l, Forall Spec.validEntry l → Forall Spec.finiteMacros l).
  { intros l Hl. eapply Forall_impl; [exact Hl | apply validEntry_finite]. }
  destruct Hcreated as [[Hstatus Hstore] |
    (userId & food & -> & Hfood & Htrim & Hcalories & Hvalid & ->)].
  - split; [rewrite Hstore; by auto | by left].
  - cbn [fst snd].
    pose proof (nutrition_validate_nil _ Hvalid Htrim (noCalories_false _ Hcalories)) as Hdoc.
    split.
    + intros Hall. assert (Forall Spec.validEntry (store ++ [
        {| n_id := nextId e; n_userId := userId; n_food := trim food;
           n_calories := ToNumber (nb_calories body);
           n_protein := validatedMacro (nb_protein body);
           n_carbs := validatedMacro (nb_carbs body);
           n_fat := validatedMacro (nb_fat body);
           n_date := default (now e) (nb_date body) |}])) as Hall'.
      { apply Forall_app. split; [done | by constructor]. }
      split; [done | by apply Hfinite].
    + right. eexists _, food. split; [reflexivity |]. split; [exact Hdoc |].
      by repeat split.
Qed.

End StoredEntries.

Section RoundTrip.

(** X8. Creating a record and then deleting it by its id restores the
    collection: when the id the database assigns is not in use and the
    create request ([setWorkout], [addProgress], [addNutrition]) is answered
    201, a delete request of the same caller for that id is answered 200
    and leaves exactly the collection from before the two requests. *)
Theorem create_then_delete (e : env) (user : option string) :
  (∀ (show : number → string) (progresses : list progress) (store : list workout)
     (body : updateBody),
     (∀ w, w ∈ store → w_id w ≠ nextId e) →
     status (setWorkout show e progresses store user body).1 = 201%nat →
     deleteWorkout (setWorkout show e progresses store user body).2 user (nextId e) =
       (Response 200 (JObj [("id", JStr (nextId e))]%string), store)) ∧
  (∀ (store : list progress) (weight : value) (date : option Z),
     (∀ p, p ∈ store → p_id p ≠ nextId e) →
     status (addProgress e store user weight date).1 = 201%nat →
     deleteProgress (addProgress e store user weight date).2 user (nextId e) =
       (Response 200 (JObj [("id", JStr (nextId e))]%string), store)) ∧
  (∀ (store : list nutrition) (body : nutritionBody),
     (∀ n, n ∈ store → n_id n ≠ nextId e) →
     status (addNutrition e store user body).1 = 201%nat →
     deleteNutrition (addNutrition e store user body).2 user (nextId e) =
       (Response 200 (JObj [("id", JStr (nextId e))]%string), store)).
Proof.
  split; [| split].
  - intros show progresses store body Hfresh Hstatus.
    pose proof (setWorkout_created show e progresses store user body) as Hcreated.
    cbv zeta in Hcreated.
    destruct Hcreated as [[Hno _] |
      (userId & type & finalWeight & finalCalories & -> & _ & _ & _ & _ & _ & Hresult)];
      [done |].
    rewrite Hresult. cbn [snd]. unfold deleteWorkout.
    rewrite (findById_snoc w_id) by done. cbn [w_userId].
    rewrite bool_decide_eq_true_2 by done. cbn [negb].
    by rewrite (findByIdAndDelete_snoc w_id).
  - intros store weight date Hfresh Hstatus.
    pose proof (addProgress_created e store user weight date) as Hcreated.
    cbv zeta in Hcreated.
    destruct Hcreated as [[Hno _] | (userId & -> & _ & _ & Hresult)]; [done |].
    rewrite Hresult. cbn [snd]. unfold deleteProgress.
    rewrite (findById_snoc p_id) by done. cbn [p_userId].
    rewrite bool_decide_eq_true_2 by done. cbn [negb].
    by rewrite (findByIdAndDelete_snoc p_id).
  - intros store body Hfresh Hstatus.
    pose proof (addNutrition_created e store user body) as Hcreated.
    cbv zeta in Hcreated.
    destruct Hcreated as [[Hno _] | (userId & food & -> & _ & _ & _ & _ & Hresult)];
      [done |].
    rewrite Hresult. cbn [snd]. unfold deleteNutrition.
    rewrite (findById_snoc n_id) by done. cbn [n_userId].
    rewrite bool_decide_eq_true_2 by done. cbn [negb].
    by rewrite (findByIdAndDelete_snoc n_id).
Qed.

Example meal_logged_then_deleted :
  let logged := addNutrition Examples.server Examples.meals (Some Examples.alice)
                  {| nb_food := Some "rice"%string; nb_calories := VNum (num 200);
                     nb_date := None; nb_protein := VNum (num 4);
                     nb_carbs := VNum (num 45); nb_fat := VUndefined |} in
  status logged.1 = 201%nat ∧
  deleteNutrition logged.2 (Some Examples.alice) (nextId Examples.server) =
    (Response 200 (JObj [("id", JStr (nextId Examples.server))]%string), Examples.meals).
Proof. split; reflexivity. Qed.

End RoundTrip.

Section Updating.

Local Open Scope Qc_scope.


Lemma findByIdAndUpdate_ids (id : string) (updateData : updateBody) (store : list workout) :
  w_id <$> findByIdAndUpdate id updateData store = w_id <$> store.
Proof.
  unfold findByIdAndUpdate. rewrite <- list_fmap_compose. apply list_fmap_ext.
  intros i w _. cbn. by case_bool_decide.
Qed.

Lemma findByIdAndUpdate_other (id : string) (updateData : updateBody) (store : list workout)
    (i : nat) (w : workout) :
  store !! i = Some w → w_id w ≠ id →
  findByIdAndUpdate id updateData store !! i = Some w.
Proof.
  intros Hi Hid. unfold findByIdAndUpdate. rewrite list_lookup_fmap, Hi. cbn.
  by rewrite bool_decide_eq_false_2.
Qed.

Lemma updateWorkout_store (progresses : list progress) (store : list workout)
    (user : option string) (id : string) (body : updateBody) :
  (updateWorkout progresses store user id body).2 = store ∨
  ∃ updateData,
    (updateWorkout progresses store user id body).2 = findByIdAndUpdate id updateData store.
Proof.
  unfold updateWorkout. destruct (findById w_id id store) as [workout |]; [| by left].
  destruct user as [userId |]; [| by left].
  destruct (negb (bool_decide (w_userId workout = userId))); [by left |].
  cbv zeta. right.
  match goal with
  | |- context [findByIdAndUpdate id ?u store] => exists u
  end.
  by destruct (findById w_id id (findByIdAndUpdate id _ store)).
Qed.

(** X9. [updateWorkout] never adds, removes, reorders or renames records:
    whoever calls it and whatever the body, the ids of the collection stay
    as they were, position by position, and every record with another id
    than the one addressed is left untouched. *)
Theorem updateWorkout_frame (progresses : list progress) (store : list workout)
    (user : option string) (id : string) (body : updateBody) :
  let result := updateWorkout progresses store user id body in
  w_id <$> result.2 = w_id <$> store ∧
  length result.2 = length store ∧
  ∀ (i : nat) (w : workout), store !! i = Some w → w_id w ≠ id → result.2 !! i = Some w.
Proof.
  cbv zeta.
  destruct (updateWorkout_store progresses store user id body) as [-> | [updateData ->]].
  - done.
  - split; [apply findByIdAndUpdate_ids |]. split.
    + unfold findByIdAndUpdate. apply length_fmap.
    + intros i w. apply findByIdAndUpdate_other.
Qed.



Example workout_made_longer :
  (updateWorkout Examples.weights Examples.workouts (Some Examples.alice)
     "65531f00a1b2c3d4e5f6000a" Examples.longer).2 =
  [ {| w_id := "65531f00a1b2c3d4e5f6000a"; w_userId := Examples.alice;
       w_type := "running"; w_duration := VNum (num 45); w_weight := VNum (num 70);
       w_calories := VNum (num 515); w_date := now Examples.server - msPerDay |} ].
Proof. reflexivity. Qed.

End Updating.

(** ** The nutrition log of a day *)

Section DayLog.

Lemma elem_of_ofDay (e : env) (userId : string) (date : Z) (store : list nutrition)
    (n : nutrition) :
  n ∈ ofDay e userId date store ↔
  n ∈ store ∧ n_userId n = userId ∧ date ≤ n_date n ∧ n_date n ≤ endOfDay e date.
Proof.
  unfold ofDay. cbv zeta. rewrite !list_elem_of_In, filter_In, !andb_true_iff.
  rewrite !bool_decide_eq_true. tauto.
Qed.

(** X11. The date filter of [getNutrition] and of [getDailySummary] keeps
    the caller's entries from the instant [date] to the end of the local
    day of [date]: the entries of that local day that are not earlier than
    [date].  It is the whole local day exactly when [date] is a local
    midnight; [getNutrition] sends the entries so selected, each once,
    newest first, and [getDailySummary] counts them. *)
Theorem nutrition_day_window (e : env) (store : list nutrition) (userId : string)
    (date : Z) :
  (∀ n, n ∈ ofDay e userId date store ↔
        n ∈ store ∧ n_userId n = userId ∧
        date ≤ n_date n ∧ Spec.sameDay e (n_date n) date) ∧
  ((∀ t, Spec.sameDay e t date → date ≤ t) ↔ startOfDay e date = date) ∧
  (∃ l, getNutrition e store (Some userId) (Some date) =
          Response 200 (JArr (nutrition_toJSON <$> l)) ∧
        l ≡ₚ ofDay e userId date store ∧
        Sorted (λ a b, n_date b ≤ n_date a) l) ∧
  s_entries (dailySummary e store userId date) = length (ofDay e userId date store).
Proof.
  assert (Hstart : startOfDay e date ≤ date).
  { unfold startOfDay, msPerDay.
    pose proof (Z.mod_pos_bound (date + tzOffset e) 86400000 ltac:(lia)). lia. }
  split; [| split; [| split]].
  - intros n. rewrite elem_of_ofDay.
    pose proof (startOfDay_range e date (n_date n)) as Hrange. split.
    + intros (Hin & Hu & Hlo & Hhi). repeat split; try done. apply Hrange. lia.
    + intros (Hin & Hu & Hlo & Hday). repeat split; try done. apply Hrange in Hday. lia.
  - split.
    + intros Hall. specialize (Hall (startOfDay e date)).
      assert (Spec.sameDay e (startOfDay e date) date) as Hsame.
      { apply startOfDay_range. unfold endOfDay, msPerDay. lia. }
      specialize (Hall Hsame). lia.
    + intros Hmidnight t Hsame. apply startOfDay_range in Hsame. lia.
  - eexists. split; [reflexivity |]. split; [apply sortByDateDesc_perm |].
    apply (sortByDateDesc_sorted (D := nutrition)).
  - unfold dailySummary.
    assert (Hcount : ∀ l totals,
              s_entries (foldl addEntry totals l) = (s_entries totals + length l)%nat).
    { induction l as [| n l IH]; intros totals; cbn [foldl length]; [lia |].
      rewrite IH. cbn [addEntry s_entries]. lia. }
    by rewrite Hcount.
Qed.





Example summary_of_yesterday :
  dailySummary Examples.server Examples.meals Examples.alice
    (now Examples.server - msPerDay) =
  Summary (num 150) (num 5) (num 27) (num 3) 1.
Proof. vm_compute. f_equal; by apply Fin_ext. Qed.

End DayLog.

(** ** Streaks, continued *)

Section StreakOrder.

Context {D : Type} `{Dated D}.

(** A streak of at least [k] days is an entry on each of the [k] days from
    today back. *)
Lemma currentStreak_ge (e : env) (docs : list D) (k : nat) :
  (k ≤ currentStreak e docs)%nat ↔
  ∀ i : nat, (i < k)%nat → Spec.hasEntryOn e docs (Spec.daysAgo e i).
Proof.
  destruct (currentStreak_walk e docs) as [Hsome Hnone]. split.
  - intros Hk i Hi. apply Hsome. lia.
  - intros Hall. destruct (decide (k ≤ currentStreak e docs)%nat) as [? | Hlt]; [done |].
    destruct Hnone. apply Hall. lia.
Qed.

Lemma currentStreak_mono (e : env) (docs docs' : list D) :
  (∀ doc, doc ∈ docs → doc ∈ docs') →
  (currentStreak e docs ≤ currentStreak e docs')%nat.
Proof.
  intros Hsub. apply currentStreak_ge. intros i Hi.
  destruct (proj1 (currentStreak_ge e docs (currentStreak e docs)) (le_n _) i Hi)
    as (doc & Hin & Hday).
  exists doc. split; [by apply Hsub | done].
Qed.

Lemma daysAgo_inj (e : env) (i j : nat) : Spec.daysAgo e i = Spec.daysAgo e j → i = j.
Proof. unfold Spec.daysAgo, addDays, msPerDay. lia. Qed.

Lemma currentStreak_length (e : env) (docs : list D) :
  (currentStreak e docs ≤ length docs)%nat.
Proof.
  set (k := currentStreak e docs).
  set (days := Spec.daysAgo e <$> seq 0 k).
  set (keys := (λ doc, startOfDay e (date_of doc)) <$> docs).
  assert (Hlen : (length days ≤ length keys)%nat).
  { apply submseteq_length, NoDup_submseteq.
    - assert (Inj eq eq (Spec.daysAgo e)) by (intros i j; apply daysAgo_inj).
      apply (NoDup_fmap_2 _), NoDup_seq.
    - intros day [i [-> Hi]]%list_elem_of_fmap. apply elem_of_seq in Hi.
      destruct (proj1 (currentStreak_ge e docs k) (le_n _) i ltac:(lia))
        as (doc & Hin & Hday).
      apply list_elem_of_fmap. by exists doc. }
  unfold days, keys in Hlen. by rewrite !length_fmap, length_seq in Hlen.
Qed.

(** X13. [currentStreak] grows with the collection and does not depend on
    the order of the documents: a collection that contains every document
    of another has a streak at least as long, two collections with the same
    documents have the same streak, a streak of at least [k] days means an
    entry on each of the [k] days from today back, and the streak never
    exceeds the number of documents. *)
Theorem currentStreak_monotone (e : env) (docs docs' : list D) :
  ((∀ doc, doc ∈ docs → doc ∈ docs') →
   (currentStreak e docs ≤ currentStreak e docs')%nat) ∧
  (docs ≡ₚ docs' → currentStreak e docs = currentStreak e docs') ∧
  (∀ k : nat, (k ≤ currentStreak e docs)%nat ↔
              ∀ i : nat, (i < k)%nat → Spec.hasEntryOn e docs (Spec.daysAgo e i)) ∧
  (currentStreak e docs ≤ length docs)%nat.
Proof.
  split; [apply currentStreak_mono |]. split; [| split].
  - intros Hperm. apply Nat.le_antisymm; apply currentStreak_mono; intros doc Hdoc.
    + by rewrite <- Hperm.
    + by rewrite Hperm.
  - intros k. apply currentStreak_ge.
  - apply currentStreak_length.
Qed.

End StreakOrder.

(** ** The overview *)

Section Overview.

Lemma currentStreak_perm {D : Type} `{Dated D} (e : env) (l l' : list D) :
  l ≡ₚ l' → currentStreak e l = currentStreak e l'.
Proof.
  intros Hperm. apply Nat.le_antisymm; apply currentStreak_mono; intros doc Hdoc.
  - by rewrite <- Hperm.
  - by rewrite Hperm.
Qed.

(** X14. The streaks and badges of [getOverview] are those of the caller's
    own records, whatever the order they are stored in: the two streaks
    are [currentStreak] of the caller's workouts and nutrition entries, the
    current weight is the caller's latest, [first_workout] is earned with
    one workout of the caller and [ten_workouts] with ten, [streak_7] and
    [log_7] exactly when the caller has a workout, respectively a
    nutrition entry, on each of the seven days from today back; a
    7-day streak implies at least seven workouts. *)
Theorem overview_badges (e : env) (workouts : list workout) (nutritions : list nutrition)
    (progresses : list progress) (userId : string) :
  let o := overviewOf e workouts nutritions progresses userId in
  let mine := filter (λ w, w_userId w = userId) workouts in
  let meals := filter (λ n, n_userId n = userId) nutritions in
  workoutStreak o = currentStreak e mine ∧
  nutritionStreak o = currentStreak e meals ∧
  o_currentWeight o = getLatestWeight progresses userId ∧
  ∃ first ten streak7 burn log7 : bool,
    badges o = [ Badge "first_workout" "First Workout" first;
                 Badge "ten_workouts" "10 Workouts" ten;
                 Badge "streak_7" "7-Day Workout Streak" streak7;
                 Badge "burn_5000" "Calorie Burner (5,000+)" burn;
                 Badge "log_7" "7-Day Logging Streak" log7 ]%string ∧
    (first = true ↔ ∃ w, w ∈ workouts ∧ w_userId w = userId) ∧
    (ten = true ↔ (10 ≤ length mine)%nat) ∧
    (streak7 = true ↔
     ∀ i : nat, (i < 7)%nat → Spec.hasEntryOn e mine (Spec.daysAgo e i)) ∧
    (log7 = true ↔
     ∀ i : nat, (i < 7)%nat → Spec.hasEntryOn e meals (Spec.daysAgo e i)) ∧
    (streak7 = true → (7 ≤ length mine)%nat ∧ first = true).
Proof.
  cbv zeta.
  destruct (findByUser_spec w_userId userId workouts) as [Hmine _].
  destruct (findByUser_spec n_userId userId nutritions) as [Hmeals _].
  pose proof (currentStreak_perm e _ _ Hmine) as Hws.
  pose proof (currentStreak_perm e _ _ Hmeals) as Hns.
  pose proof (Permutation_length Hmine) as Hlen.
  split; [exact Hws |]. split; [exact Hns |]. split; [reflexivity |].
  eexists _, _, _, _, _. split; [reflexivity |].
  assert (Hfirst : (1 ≤ length (findByUser w_userId userId workouts))%nat ↔
                   ∃ w, w ∈ workouts ∧ w_userId w = userId).
  { rewrite Hlen. split.
    - intros Hone.
      destruct (filter (λ w, w_userId w = userId) workouts) as [| w l] eqn:E;
        [cbn in Hone; lia |].
      assert (w ∈ filter (λ w, w_userId w = userId) workouts) as Hin
        by (rewrite E; apply list_elem_of_here).
      apply list_elem_of_filter in Hin as [? ?]. by exists w.
    - intros (w & Hin & Hu).
      assert (w ∈ filter (λ w, w_userId w = userId) workouts) as Hin'
        by (by apply list_elem_of_filter).
      destruct (filter (λ w, w_userId w = userId) workouts);
        [by apply elem_of_nil in Hin' | cbn; lia]. }
  assert (Hstreak : (7 ≤ currentStreak e (findByUser w_userId userId workouts))%nat ↔
            ∀ i : nat, (i < 7)%nat →
              Spec.hasEntryOn e (filter (λ w, w_userId w = userId) workouts)
                (Spec.daysAgo e i)).
  { rewrite Hws. apply currentStreak_ge. }
  split; [by rewrite bool_decide_eq_true |].
  split; [by rewrite bool_decide_eq_true, Hlen |].
  split; [by rewrite bool_decide_eq_true |].
  split; [rewrite bool_decide_eq_true, Hns; apply currentStreak_ge |].
  rewrite !bool_decide_eq_true. intros Hseven.
  pose proof (currentStreak_length e (findByUser w_userId userId workouts)) as Hbound.
  pose proof (Nat.le_trans _ _ _ Hseven Hbound) as Hmany.
  split; [by rewrite <- Hlen |].
  apply (Nat.le_trans 1 7); [repeat constructor | exact Hmany].
Qed.

End Overview.

(** ** The forecast of a steady change *)

Section Steady.

Local Open Scope Qc_scope.









End Steady.

(** ** The frontend's checks against the server's *)

Section ClientChecks.

Ltac member :=
  first
    [ by (split; [intros _; reflexivity
                 | intros _; apply (bool_decide_unpack _); reflexivity])
    | by (split; [intros Hin; exfalso; revert Hin;
                  apply (proj1 (bool_decide_eq_false _)); reflexivity
                 | intros Hfalse; discriminate Hfalse]) ].

Lemma errors_food (entry : nutritionBody) :
  "Food name is required"%string ∈ (Client.validateNutritionEntry entry).2 ↔
  Client.noFood (nb_food entry) = true.
Proof.
  unfold Client.validateNutritionEntry. cbn [snd].
  destruct (Client.noFood (nb_food entry)), (Client.noCalories (nb_calories entry)),
    (Client.badMacro (nb_protein entry)), (Client.badMacro (nb_carbs entry)),
    (Client.badMacro (nb_fat entry)); cbn [app]; member.
Qed.

Lemma errors_calories (entry : nutritionBody) :
  "Valid calories value is required"%string ∈ (Client.validateNutritionEntry entry).2 ↔
  Client.noCalories (nb_calories entry) = true.
Proof.
  unfold Client.validateNutritionEntry. cbn [snd].
  destruct (Client.noFood (nb_food entry)), (Client.noCalories (nb_calories entry)),
    (Client.badMacro (nb_protein entry)), (Client.badMacro (nb_carbs entry)),
    (Client.badMacro (nb_fat entry)); cbn [app]; member.
Qed.

Lemma errors_nil (entry : nutritionBody) :
  (Client.validateNutritionEntry entry).2 = [] →
  Client.noFood (nb_food entry) = false ∧ Client.noCalories (nb_calories entry) = false.
Proof.
  unfold Client.validateNutritionEntry. cbn [snd].
  by destruct (Client.noFood (nb_food entry)), (Client.noCalories (nb_calories entry)).
Qed.

(** The three ways [addNutrition] goes: the two refusals with 400, and the
    rest, which is not answered 400. *)
Lemma addNutrition_cases (e : env) (store : list nutrition) (user : option string)
    (body : nutritionBody) :
  (Client.noFood (nb_food body) = true ∧
   addNutrition e store user body = (message 400 "Food name is required", store)) ∨
  (Client.noFood (nb_food body) = false ∧ Client.noCalories (nb_calories body) = true ∧
   addNutrition e store user body =
     (message 400 "Valid calories value is required", store)) ∨
  (Client.noFood (nb_food body) = false ∧ Client.noCalories (nb_calories body) = false ∧
   status (addNutrition e store user body).1 ≠ 400%nat).
Proof.
  unfold addNutrition, Client.noFood. destruct (nb_food body) as [food |]; [| by left].
  cbn [fmap option_fmap option_map].
  destruct (negb (truthyString (Some food)) || negb (truthyString (Some (trim food))));
    [by left |].
  right. fold (Client.noCalories (nb_calories body)).
  destruct (Client.noCalories (nb_calories body)); [by left |].
  right. do 2 (split; [done |]). destruct user as [userId |]; [| done].
  by destruct (nutrition_create _ store).
Qed.

(** X16. The frontend refuses what the server would refuse with 400, and
    with the same message: [nutritionAPI.addNutrition] rejects an entry
    with a message exactly when the server's [addNutrition] would answer
    400 with that message, and the server answers 400 exactly when
    [validateNutritionEntry] reports the food-name or the calories error.
    The macro errors of [validateNutritionEntry] have no counterpart: an
    entry it accepts is never answered 400, but not conversely. *)
Theorem client_refusals_match (now : Z) (e : env) (store : list nutrition)
    (user : option string) (entry : nutritionBody) :
  let errors := (Client.validateNutritionEntry entry).2 in
  (∀ msg : string,
     Client.addNutrition now entry = inl msg ↔
     addNutrition e store user entry = (message 400 msg, store)) ∧
  (status (addNutrition e store user entry).1 = 400%nat ↔
   "Food name is required"%string ∈ errors ∨
   "Valid calories value is required"%string ∈ errors) ∧
  ((Client.validateNutritionEntry entry).1 = true ↔ errors = []) ∧
  ((Client.validateNutritionEntry entry).1 = true →
   status (addNutrition e store user entry).1 ≠ 400%nat ∧
   ∃ cleaned, Client.addNutrition now entry = inr cleaned).
Proof.
  cbv zeta. rewrite errors_food, errors_calories.
  pose proof (errors_nil entry) as Hnil.
  assert (Hvalid : (Client.validateNutritionEntry entry).1 = true ↔
                   (Client.validateNutritionEntry entry).2 = []).
  { unfold Client.validateNutritionEntry. cbn [fst snd]. rewrite bool_decide_eq_true.
    apply length_zero_iff_nil. }
  unfold Client.addNutrition.
  destruct (addNutrition_cases e store user entry)
    as [[Hfood Hres] | [(Hfood & Hcal & Hres) | (Hfood & Hcal & Hres)]];
    rewrite Hfood, ?Hcal.
  - rewrite Hres. split; [| split; [| split]].
    + intros msg. split; [by intros [= <-] | by intros [= <-]].
    + split; [by left | done].
    + done.
    + intros Hok. apply Hvalid, Hnil in Hok as [Hno _]. congruence.
  - rewrite Hres. split; [| split; [| split]].
    + intros msg. split; [by intros [= <-] | by intros [= <-]].
    + split; [by right | done].
    + done.
    + intros Hok. apply Hvalid, Hnil in Hok as [_ Hno]. congruence.
  - split; [| split; [| split]].
    + intros msg. split; [done |]. intros Heq. rewrite Heq in Hres. by destruct Hres.
    + split; [done | by intros [? | ?]].
    + done.
    + intros _. split; [done | by eexists].
Qed.

Lemma trimEnd_idemp (s : string) : trimEnd (trimEnd s) = trimEnd s.
Proof.
  induction s as [| c s IH]; [done |]. cbn [trimEnd].
  destruct (trimEnd s) as [| c' t] eqn:E.
  - destruct (isSpace c) eqn:Hc; [done |]. cbn [trimEnd]. by rewrite Hc.
  - cbn [trimEnd]. cbn [trimEnd] in IH. destruct (trimEnd t) eqn:Et.
    + destruct (isSpace c'); [done | by injection IH as ->].
    + by injection IH as ->.
Qed.

Lemma trimStart_head (s : string) :
  match trimStart s with
  | EmptyString => True
  | String c _ => isSpace c = false
  end.
Proof.
  induction s as [| c s IH]; [done |]. cbn [trimStart].
  by destruct (isSpace c) eqn:Hc; [| rewrite Hc].
Qed.

Lemma trim_idemp (s : string) : trim (trim s) = trim s.
Proof.
  unfold trim. pose proof (trimStart_head s) as Hhead.
  destruct (trimStart s) as [| c t]; [done |].
  assert (trimStart (trimEnd (String c t)) = trimEnd (String c t)) as ->.
  { cbn [trimEnd]. destruct (trimEnd t); [rewrite Hhead |]; cbn [trimStart];
      by rewrite Hhead. }
  apply trimEnd_idemp.
Qed.

Lemma validatedMacro_cleaned (v : value) :
  validatedMacro (VNum (orZero (ToNumber v))) = validatedMacro v.
Proof.
  destruct v as [| | [| | | q] |]; try done.
  unfold orZero. cbn [ToNumber ToBoolean]. case_bool_decide as Hq; [| done].
  subst q. reflexivity.
Qed.

Lemma noCalories_number (calories : value) :
  Client.noCalories calories = false → VNum (ToNumber calories) = calories.
Proof.
  unfold Client.noCalories. intros Hno.
  apply orb_false_iff in Hno as [Hno _]. apply orb_false_iff in Hno as [Hno Hnan].
  by destruct calories.
Qed.

(** X17. The cleaning [nutritionAPI.addNutrition] does before it posts an
    entry changes nothing the server would not do itself, except the date:
    the server handles the cleaned body as it handles the original one
    with the date the frontend filled in, which is the body's date or else
    the UTC midnight of the current day, so the server's own default, the
    current instant, is never used for entries sent this way.  The cleaned
    body is not answered 400. *)
Theorem client_cleaning_neutral (now : Z) (e : env) (store : list nutrition)
    (user : option string) (entry cleaned : nutritionBody) :
  Client.addNutrition now entry = inr cleaned →
  addNutrition e store user cleaned =
    addNutrition e store user
      {| nb_food := nb_food entry; nb_calories := nb_calories entry;
         nb_date := Some (default (Client.todayString now) (nb_date entry));
         nb_protein := nb_protein entry; nb_carbs := nb_carbs entry;
         nb_fat := nb_fat entry |} ∧
  status (addNutrition e store user cleaned).1 ≠ 400%nat ∧
  (∀ doc, (addNutrition e store user cleaned).2 = store ++ [doc] →
          n_date doc = default (Client.todayString now) (nb_date entry)).
Proof.
  unfold Client.addNutrition.
  destruct (Client.noFood (nb_food entry)) eqn:Hfood; [done |].
  destruct (Client.noCalories (nb_calories entry)) eqn:Hcal; [done |].
  intros [= <-].
  assert (Hsame : addNutrition e store user
            {| nb_food := trim <$> nb_food entry;
               nb_calories := VNum (ToNumber (nb_calories entry));
               nb_date := Some (default (Client.todayString now) (nb_date entry));
               nb_protein := VNum (orZero (ToNumber (nb_protein entry)));
               nb_carbs := VNum (orZero (ToNumber (nb_carbs entry)));
               nb_fat := VNum (orZero (ToNumber (nb_fat entry))) |} =
          addNutrition e store user
            {| nb_food := nb_food entry; nb_calories := nb_calories entry;
               nb_date := Some (default (Client.todayString now) (nb_date entry));
               nb_protein := nb_protein entry; nb_carbs := nb_carbs entry;
               nb_fat := nb_fat entry |}).
  { unfold addNutrition. cbn [nb_food nb_calories nb_date nb_protein nb_carbs nb_fat].
    rewrite !validatedMacro_cleaned, (noCalories_number _ Hcal).
    unfold Client.noFood in Hfood. destruct (nb_food entry) as [food |]; [| done].
    cbn [fmap option_fmap option_map] in *. rewrite trim_idemp.
    apply orb_false_iff in Hfood as [Hf Ht]. by rewrite Hf, Ht. }
  split; [exact Hsame |]. rewrite Hsame.
  set (dated := {| nb_food := nb_food entry; nb_calories := nb_calories entry;
                   nb_date := Some (default (Client.todayString now) (nb_date entry));
                   nb_protein := nb_protein entry; nb_carbs := nb_carbs entry;
                   nb_fat := nb_fat entry |}).
  split.
  - destruct (addNutrition_cases e store user dated)
      as [[Hno _] | [(_ & Hno & _) | (_ & _ & Hstatus)]]; [| | done].
    + cbn [dated nb_food] in Hno. congruence.
    + cbn [dated nb_calories] in Hno. congruence.
  - intros doc Hstore.
    pose proof (addNutrition_created e store user dated) as Hcreated. cbv zeta in Hcreated.
    destruct Hcreated as [[_ Hunchanged] | (userId & food & _ & _ & _ & _ & _ & Hres)].
    + rewrite Hunchanged in Hstore.
      apply (f_equal length) in Hstore. rewrite length_app in Hstore. cbn in Hstore. lia.
    + rewrite Hres in Hstore. cbn [snd] in Hstore.
      apply app_inj_tail in Hstore as [_ <-]. reflexivity.
Qed.

Lemma client_cleaning_neutral_witness :
  let entry := Examples.snack in
  let cleaned := {| nb_food := Some "boiled egg"%string; nb_calories := VNum (num 78);
                    nb_date := Some 1699920000000;
                    nb_protein := VNum (num (-6)); nb_carbs := VNum (num 0);
                    nb_fat := VNum (num 0) |} in
  addNutrition Examples.server Examples.meals (Some Examples.alice) cleaned =
    addNutrition Examples.server Examples.meals (Some Examples.alice)
      {| nb_food := nb_food entry; nb_calories := nb_calories entry;
         nb_date := Some (default (Client.todayString (Date.now Examples.server))
                            (nb_date entry));
         nb_protein := nb_protein entry; nb_carbs := nb_carbs entry;
         nb_fat := nb_fat entry |} ∧
  status (addNutrition Examples.server Examples.meals (Some Examples.alice) cleaned).1
    ≠ 400%nat ∧
  (∀ doc, (addNutrition Examples.server Examples.meals (Some Examples.alice) cleaned).2 =
            Examples.meals ++ [doc] →
          n_date doc = default (Client.todayString (Date.now Examples.server))
                         (nb_date entry)).
Proof.
  apply (client_cleaning_neutral (Date.now Examples.server) Examples.server Examples.meals
           (Some Examples.alice) Examples.snack).
  reflexivity.
Defined.

End ClientChecks.

(** ** The "auto-calculated" mark of the Workouts page *)

Section Recognition.

Local Open Scope Qc_scope.









Example manual_entry_marked :
  Client.isLikelyCalculated
    {| w_id := "65531f00a1b2c3d4e5f6000c"; w_userId := Examples.bob;
       w_type := "Running"; w_duration := VNum (num 30); w_weight := VNum (num 70);
       w_calories := VNum (num 344); w_date := now Examples.server |} = true.
Proof. reflexivity. Qed.

End Recognition.

(** ** The food search *)

Section FoodSearch.







Example search_keeps_usable_products :
  simplifiedResults
    [ {| product_name := Some " Oat flakes "%string; brands := Some "Mill, Co"%string;
         product_nutriments :=
           Some {| energy_kcal_100g := VNum (lit 371.5); energy_100g := VNum (num 1554);
                   proteins_100g := VNum (lit 13.4); carbohydrates_100g := VNum (num 58);
                   fat_100g := VUndefined |};
         serving_size := None; quantity := Some "500 g"%string |};
      {| product_name := Some "   "%string; brands := None;
         product_nutriments :=
           Some {| energy_kcal_100g := VNum (num 100); energy_100g := VUndefined;
                   proteins_100g := VUndefined; carbohydrates_100g := VUndefined;
                   fat_100g := VUndefined |};
         serving_size := None; quantity := None |} ] =
  [ {| f_name := "Oat flakes"; f_calories := num 372; f_protein := num 13;
       f_carbs := num 58; f_fat := num 0; f_brand := "Mill"; f_serving_size := "100g";
       f_quantity := "500 g" |} ].
Proof. reflexivity. Qed.

End FoodSearch.

(** ** Calories in and out, day by day *)

Section DailyCalories.

Lemma totalOn_upsert (k k' : Z * Z * Z) (x : number) (groups : list (Z * Z * Z * number)) :
  totalOn k (upsert k' x groups) =
    if decide (k' = k) then add (totalOn k groups) x else totalOn k groups.
Proof.
  unfold totalOn. induction groups as [| [k'' total] groups IH]; cbn [upsert List.find fst].
  - case_bool_decide; destruct (decide (k' = k)); done.
  - destruct (decide (k'' = k')) as [-> | Hne].
    + rewrite bool_decide_eq_true_2 by done. cbn [List.find fst].
      destruct (decide (k' = k)) as [-> | Hk].
      * by rewrite !bool_decide_eq_true_2.
      * by rewrite !bool_decide_eq_false_2.
    + rewrite bool_decide_eq_false_2 by done. cbn [List.find fst].
      case_bool_decide as Hk; [| exact IH].
      subst k''. by rewrite decide_False by congruence.
Qed.

Lemma totalOn_foldl {D : Type} `{Dated D} (amount : D → number) (k : Z * Z * Z)
    (docs : list D) (groups : list (Z * Z * Z * number)) :
  totalOn k (foldl (λ groups d, upsert (utcDate (date_of d)) (amount d) groups) groups docs) =
    foldl add (totalOn k groups)
      (amount <$> filter (λ d, utcDate (date_of d) = k) docs).
Proof.
  revert groups. induction docs as [| d docs IH]; intros groups; [done |].
  cbn [foldl]. rewrite IH, totalOn_upsert, filter_cons.
  by destruct (decide (utcDate (date_of d) = k)).
Qed.

Lemma keys_upsert (k : Z * Z * Z) (x : number) (groups : list (Z * Z * Z * number)) :
  fst <$> upsert k x groups =
    if decide (k ∈ fst <$> groups) then fst <$> groups else (fst <$> groups) ++ [k].
Proof.
  induction groups as [| [k' total] groups IH]; [done |]. cbn [upsert fmap list_fmap fst].
  case_bool_decide as Hk.
  - subst k'. rewrite decide_True by apply list_elem_of_here. done.
  - cbn [fmap list_fmap fst]. change (list_fmap _ _ fst ?l) with (fst <$> l).
    rewrite IH. destruct (decide (k ∈ fst <$> groups)) as [Hin | Hout].
    + by rewrite decide_True by (by apply list_elem_of_further).
    + rewrite decide_False; [done |]. intros [? | ?]%elem_of_cons; congruence.
Qed.

Lemma NoDup_groupByDate {D : Type} `{Dated D} (amount : D → number) (docs : list D) :
  NoDup (fst <$> groupByDate amount docs).
Proof.
  unfold groupByDate.
  assert (Hgen : ∀ groups : list (Z * Z * Z * number),
            NoDup (fst <$> groups) →
            NoDup (fst <$> foldl (λ groups d, upsert (utcDate (date_of d)) (amount d) groups)
                             groups docs)).
  { induction docs as [| d docs IH]; intros groups Hgroups; [done |].
    cbn [foldl]. apply IH. rewrite keys_upsert.
    destruct (decide (utcDate (date_of d) ∈ fst <$> groups)); [done |].
    apply NoDup_app. split; [done |]. split; [| apply NoDup_singleton].
    intros k Hk ->%list_elem_of_singleton. done. }
  apply Hgen. constructor.
Qed.

Lemma insertGroup_perm (g : Z * Z * Z * number) (l : list (Z * Z * Z * number)) :
  insertGroup g l ≡ₚ g :: l.
Proof.
  induction l as [| x l IH]; [done |]. cbn [insertGroup].
  destruct (dateLe g.1 x.1); [done |]. rewrite IH. apply Permutation_swap.
Qed.

Lemma sortGroups_perm (l : list (Z * Z * Z * number)) : sortGroups l ≡ₚ l.
Proof.
  induction l as [| g l IH]; [done |].
  change (sortGroups (g :: l)) with (insertGroup g (sortGroups l)).
  by rewrite insertGroup_perm, IH.
Qed.

Lemma find_insertGroup (k : Z * Z * Z) (g : Z * Z * Z * number)
    (l : list (Z * Z * Z * number)) :
  g.1 ∉ fst <$> l →
  List.find (λ g, bool_decide (g.1 = k)) (insertGroup g l) =
    if bool_decide (g.1 = k) then Some g else List.find (λ g, bool_decide (g.1 = k)) l.
Proof.
  induction l as [| x l IH]; intros Hfresh; [done |]. cbn [insertGroup].
  destruct (dateLe g.1 x.1); [done |]. cbn [List.find].
  rewrite IH by (intros Hin; apply Hfresh; by apply list_elem_of_further).
  case_bool_decide as Hx; [| done]. rewrite bool_decide_eq_false_2; [done |].
  intros Hg. apply Hfresh. cbn [fmap list_fmap]. rewrite Hg, <- Hx. apply list_elem_of_here.
Qed.

Lemma totalOn_sortGroups (k : Z * Z * Z) (l : list (Z * Z * Z * number)) :
  NoDup (fst <$> l) → totalOn k (sortGroups l) = totalOn k l.
Proof.
  unfold totalOn. intros Hl.
  assert (Hfind : List.find (λ g, bool_decide (g.1 = k)) (sortGroups l) =
                  List.find (λ g, bool_decide (g.1 = k)) l); [| by rewrite Hfind].
  induction l as [| g l IH]; [done |]. apply NoDup_cons in Hl as [Hfresh Hl].
  change (sortGroups (g :: l)) with (insertGroup g (sortGroups l)).
  rewrite find_insertGroup by (by rewrite sortGroups_perm).
  cbn [List.find]. by rewrite IH.
Qed.

(** The total [getCaloriesData] finds for a date: the sum over the
    documents whose UTC date it is. *)
Lemma totalOn_groups {D : Type} `{Dated D} (amount : D → number) (k : Z * Z * Z)
    (docs : list D) :
  totalOn k (sortGroups (groupByDate amount docs)) =
    foldl add (num 0) (amount <$> filter (λ d, utcDate (date_of d) = k) docs).
Proof.
  rewrite totalOn_sortGroups by apply NoDup_groupByDate.
  unfold groupByDate. by rewrite totalOn_foldl.
Qed.

Lemma filter_filter_and {A : Type} (f : A → bool) (P : A → Prop) `{∀ x, Decision (P x)}
    (l : list A) :
  filter P (List.filter f l) = filter (λ x, f x = true ∧ P x) l.
Proof.
  induction l as [| x l IH]; [done |]. cbn [List.filter]. rewrite (filter_cons (λ x, _ ∧ _)).
  destruct (f x) eqn:E.
  - rewrite filter_cons, IH. destruct (decide (P x)).
    + by rewrite decide_True.
    + by rewrite decide_False by tauto.
  - rewrite IH. by rewrite decide_False by (intros [? _]; done).
Qed.

(** X20. [getCaloriesData] sends seven rows, for the day six days ago up
    to today, each labelled with the local date of its day.  The calories
    burned of a row are the sum of the numeric calories of the caller's
    workouts dated within the last seven days whose UTC date is the local
    date of the row's day, and the calories consumed the like sum over the
    caller's nutrition entries: the grouping is by UTC date, the lookup by
    local date. *)
Theorem caloriesRows_spec (e : env) (workouts : list workout) (nutritions : list nutrition)
    (userId : string) :
  let rows := caloriesRows e workouts nutritions userId in
  length rows = 7%nat ∧
  getCaloriesData e workouts nutritions userId = Response 200 (JArr (dayRowJSON <$> rows)) ∧
  ∀ i : nat, (i < 7)%nat →
    let day := addDays (now e) (- (6 - Z.of_nat i)) in
    ∃ row : dayRow,
      rows !! i = Some row ∧
      r_date row = shortDate e day ∧
      burned row =
        foldl add (num 0)
          ((λ w, numeric (w_calories w)) <$>
           filter (λ w, w_userId w = userId ∧ addDays (now e) (-7) ≤ w_date w ∧
                        utcDate (w_date w) = localDate e day) workouts) ∧
      consumed row =
        foldl add (num 0)
          (n_calories <$>
           filter (λ n, n_userId n = userId ∧ addDays (now e) (-7) ≤ n_date n ∧
                        utcDate (n_date n) = localDate e day) nutritions).
Proof.
  cbv zeta. split; [reflexivity |]. split; [reflexivity |].
  intros i Hi. unfold caloriesRows. cbv zeta.
  rewrite list_lookup_fmap.
  assert (Hday : [6; 5; 4; 3; 2; 1; 0] !! i = Some (6 - Z.of_nat i)).
  { do 7 (destruct i as [| i]; [reflexivity |]). lia. }
  rewrite Hday. cbn [fmap option_fmap option_map].
  eexists. split; [reflexivity |]. cbn [r_date burned consumed].
  split; [reflexivity |].
  rewrite (totalOn_groups (D := workout)), (totalOn_groups (D := nutrition)).
  rewrite !filter_filter_and. split; do 2 f_equal; apply list_filter_iff; intros d;
    rewrite andb_true_iff, !bool_decide_eq_true; tauto.
Qed.

(** A run logged at 01:00 local time, UTC+5:30, on the server's today is
    dated the day before in UTC: the row of today shows nothing burned and
    the row of yesterday shows the run. *)
Example run_after_midnight :
  let e := {| now := 1700000000000; tzOffset := 19800000; nextId := nextId Examples.server |} in
  let run := {| w_id := "65531f00a1b2c3d4e5f6000d"; w_userId := Examples.alice;
                w_type := "running"; w_duration := VNum (num 30);
                w_weight := VNum (num 70); w_calories := VNum (num 343);
                w_date := startOfDay e (now e) + 3600000 |} in
  localDate e (w_date run) = localDate e (now e) ∧
  (burned <$> caloriesRows e [run] [] Examples.alice) !! 6%nat = Some (num 0) ∧
  (burned <$> caloriesRows e [run] [] Examples.alice) !! 5%nat = Some (add (num 0) (num 343)).
Proof. vm_compute. repeat split. Qed.

End DailyCalories.

(** ** The latest weight, wherever it is shown *)

Section LatestWeight.

Context {D : Type} `{Dated D}.





End LatestWeight.

Section ProgressPage.



End ProgressPage.

(** ** The weight chart and the forecast *)

Section WeightChart.

(** X22. [getWeightTrend] sends one point per weight entry of the caller
    dated within the last 30 days, oldest first, each with the local short
    date and the weight of its entry; [getForecast] works on the same
    entries: it reports as many data points as the chart has and the
    weight of the chart's last point as the current weight, and it
    declines to predict exactly when the chart has fewer than two
    points. *)
Theorem weightTrend_spec (e : env) (store : list progress) (userId : string) :
  let points := weightTrend e store userId in
  let res := body (getForecast e store userId) in
  (∃ entries : list progress,
     entries ≡ₚ filter (Spec.inWindow e userId) store ∧
     Sorted (λ a b, p_date a ≤ p_date b) entries ∧
     points = (λ p, (shortDate e (p_date p), p_weight p)) <$> entries) ∧
  length points = length (filter (Spec.inWindow e userId) store) ∧
  ((length points < 2)%nat ↔ field "prediction" res = Some JNull) ∧
  ((2 ≤ length points)%nat →
   field "dataPoints" res = Some (JNum (num (Z.of_nat (length points)))) ∧
   field "currentWeight" res = (λ point, JNum point.2) <$> last points).
Proof.
  cbv zeta. destruct (weightWindow_spec e store userId) as [Hperm Hsorted].
  assert (Hlen : length (weightTrend e store userId) = length (weightWindow e store userId)).
  { unfold weightTrend. by rewrite length_fmap. }
  split; [by exists (weightWindow e store userId) |].
  split; [by rewrite Hlen, Hperm |]. rewrite Hlen. unfold getForecast. cbv zeta.
  case_bool_decide as Hfew; cbn [body].
  - split; [done |]. intros Hmany. lia.
  - split; [split; [lia | done] |]. intros _. split; [reflexivity |].
    unfold weightTrend. rewrite fmap_last. unfold regression. cbn [field currentWeight].
    destruct (last (weightWindow e store userId)) as [entry |] eqn:Hlast; [done |].
    apply last_None in Hlast. rewrite Hlast in Hfew. cbn in Hfew. lia.
Qed.

End WeightChart.

(** ** Logging and the overview *)

Section LoggedToday.

Lemma startOfDay_today (e : env) : Spec.daysAgo e 0 = startOfDay e (now e).
Proof. unfold Spec.daysAgo, addDays. cbn. lia. Qed.

(** X23. A workout logged without a date counts for today: when
    [setWorkout] answers 201 to a body without a date, the overview
    computed at the same instant shows a workout streak of at least 1, no
    shorter than the streak before the request, and the [first_workout]
    badge earned. *)
Theorem logged_workout_counts (show : number → string) (e : env)
    (progresses : list progress) (workouts : list workout) (nutritions : list nutrition)
    (userId : string) (body : updateBody) :
  b_date body = None →
  status (setWorkout show e progresses workouts (Some userId) body).1 = 201%nat →
  let before := overviewOf e workouts nutritions progresses userId in
  let after := overviewOf e (setWorkout show e progresses workouts (Some userId) body).2
                 nutritions progresses userId in
  (1 ≤ workoutStreak after)%nat ∧
  (workoutStreak before ≤ workoutStreak after)%nat ∧
  Badge "first_workout" "First Workout" true ∈ badges after ∧
  nutritionStreak after = nutritionStreak before.
Proof.
  intros Hdate Hstatus before after.
  pose proof (setWorkout_created show e progresses workouts (Some userId) body) as Hcreated.
  cbv zeta in Hcreated.
  destruct Hcreated as [[Hno _] |
    (userId' & type & finalWeight & finalCalories & [= <-] & _ & _ & _ & _ & _ & Hresult)];
    [done |].
  subst before after. rewrite Hresult. cbn [snd]. rewrite Hdate. cbn [default].
  set (doc := {| w_id := nextId e; w_userId := userId; w_type := trim type;
                 w_duration := b_duration body; w_weight := finalWeight;
                 w_calories := finalCalories; w_date := now e |}).
  destruct (findByUser_spec w_userId userId (workouts ++ [doc])) as [Hafter _].
  destruct (findByUser_spec w_userId userId workouts) as [Hbefore _].
  assert (Hdoc : doc ∈ findByUser w_userId userId (workouts ++ [doc])).
  { rewrite Hafter. apply list_elem_of_filter. split; [done |].
    apply elem_of_app. right. apply list_elem_of_here. }
  assert (Hone : (1 ≤ currentStreak e (findByUser w_userId userId (workouts ++ [doc])))%nat).
  { apply currentStreak_ge. intros i Hi. assert (i = 0%nat) as -> by lia.
    exists doc. split; [done |]. by rewrite startOfDay_today. }
  split; [exact Hone |]. split; [| split; [| reflexivity]].
  - apply currentStreak_mono. intros w. rewrite Hafter, Hbefore, !list_elem_of_filter.
    intros [? ?]. split; [done |]. apply elem_of_app. by left.
  - cbn [overviewOf badges].
    assert (bool_decide (1 ≤ length (findByUser w_userId userId (workouts ++ [doc])))%nat
            = true) as ->.
    { apply bool_decide_eq_true_2.
      destruct (findByUser w_userId userId (workouts ++ [doc]));
        [by apply elem_of_nil in Hdoc | cbn; lia]. }
    apply list_elem_of_here.
Qed.

Lemma logged_workout_counts_witness :
  let e := Examples.server in
  let before := overviewOf e Examples.workouts Examples.meals Examples.weights
                  Examples.alice in
  let after := overviewOf e
                 (setWorkout (toFixed 0) e Examples.weights Examples.workouts
                    (Some Examples.alice) Examples.run).2
                 Examples.meals Examples.weights Examples.alice in
  (1 ≤ workoutStreak after)%nat ∧
  (workoutStreak before ≤ workoutStreak after)%nat ∧
  Badge "first_workout" "First Workout" true ∈ badges after ∧
  nutritionStreak after = nutritionStreak before.
Proof.
  apply (logged_workout_counts (toFixed 0) Examples.server Examples.weights
           Examples.workouts Examples.meals Examples.alice Examples.run).
  - reflexivity.
  - reflexivity.
Defined.

End LoggedToday.

(** ** One user's requests and another user's records *)

Section Isolation.

Context {D : Type} (id_of user_of : D → string).

Lemma filter_user_snoc (v : string) (store : list D) (doc : D) :
  user_of doc ≠ v →
  List.filter (λ d, bool_decide (user_of d = v)) (store ++ [doc]) =
    List.filter (λ d, bool_decide (user_of d = v)) store.
Proof.
  intros Hdoc. rewrite List.filter_app. cbn [List.filter].
  rewrite bool_decide_eq_false_2 by done. apply app_nil_r.
Qed.

Lemma filter_user_delete (v id : string) (store : list D) (w : D) :
  NoDup (id_of <$> store) → findById id_of id store = Some w → user_of w ≠ v →
  List.filter (λ d, bool_decide (user_of d = v)) (findByIdAndDelete id_of id store) =
    List.filter (λ d, bool_decide (user_of d = v)) store.
Proof.
  unfold findById, findByIdAndDelete. intros Hids Hfind Hw.
  induction store as [| d store IH]; [done |].
  apply NoDup_cons in Hids as [Hfresh Hids]. cbn [List.find List.filter] in *.
  case_bool_decide as Hid; cbn [negb].
  - injection Hfind as ->. rewrite (bool_decide_eq_false_2 (user_of w = v)) by done.
    f_equal. apply (findByIdAndDelete_fresh id_of). intros d' Hd' Hid'.
    apply Hfresh. rewrite Hid, <- Hid'. by apply list_elem_of_fmap_2.
  - cbn [List.filter]. by rewrite IH.
Qed.

End Isolation.

Section OtherUsers.

Lemma filter_user_update (v id : string) (updateData : updateBody) (store : list workout)
    (w : workout) :
  NoDup (w_id <$> store) → findById w_id id store = Some w →
  w_userId w ≠ v → b_userId updateData = None →
  List.filter (λ d, bool_decide (w_userId d = v)) (findByIdAndUpdate id updateData store) =
    List.filter (λ d, bool_decide (w_userId d = v)) store.
Proof.
  unfold findById, findByIdAndUpdate. intros Hids Hfind Hw Hbody.
  induction store as [| d store IH]; [done |].
  apply NoDup_cons in Hids as [Hfresh Hids]. cbn [List.find fmap list_fmap List.filter] in *.
  case_bool_decide as Hid.
  - injection Hfind as ->. cbn [applyUpdate w_userId]. rewrite Hbody. cbn [default].
    rewrite (bool_decide_eq_false_2 (w_userId w = v)) by done.
    f_equal. clear IH. induction store as [| d' store IH']; [done |].
    cbn [fmap list_fmap]. rewrite bool_decide_eq_false_2.
    + f_equal. apply IH'.
      * intros Hin. apply Hfresh. by apply list_elem_of_further.
      * by apply NoDup_cons in Hids as [_ ?].
    + intros Hid'. apply Hfresh. rewrite Hid, <- Hid'. apply list_elem_of_here.
  - change (list_fmap _ _ ?f store) with (f <$> store). by rewrite IH.
Qed.

Lemma updateWorkout_changes (progresses : list progress) (store : list workout)
    (u id : string) (body : updateBody) :
  (updateWorkout progresses store (Some u) id body).2 = store ∨
  ∃ w updateData,
    findById w_id id store = Some w ∧ w_userId w = u ∧
    b_userId updateData = b_userId body ∧
    (updateWorkout progresses store (Some u) id body).2 =
      findByIdAndUpdate id updateData store.
Proof.
  unfold updateWorkout. destruct (findById w_id id store) as [w |] eqn:Hfind; [| by left].
  case_bool_decide as Hu; cbn [negb]; [| by left].
  right. exists w. cbv zeta.
  match goal with
  | |- context [findByIdAndUpdate id ?u store] => exists u
  end.
  split; [done |]. split; [done |]. split.
  - repeat match goal with |- context [if ?b then _ else _] => destruct b end; done.
  - by destruct (findById w_id id (findByIdAndUpdate id _ store)).
Qed.

(** X24. What one user does leaves the listings of every other user as they
    were: after a create or a delete request of user [u] on workouts,
    progress entries or nutrition entries, and after an update of a workout
    whose body carries no [userId], the list endpoints send another user
    [v] what they sent before.  Ids are unique, as ObjectIds are.  (A body
    with a [userId] is passed to the update as it is, so it can hand the
    workout to another user.) *)
Theorem other_users_unaffected (u v : string) :
  u ≠ v →
  (∀ show e progresses (store : list workout) body,
     getWorkouts (setWorkout show e progresses store (Some u) body).2 (Some v) =
       getWorkouts store (Some v)) ∧
  (∀ (store : list workout) id,
     NoDup (w_id <$> store) →
     getWorkouts (deleteWorkout store (Some u) id).2 (Some v) = getWorkouts store (Some v)) ∧
  (∀ progresses (store : list workout) id body,
     NoDup (w_id <$> store) → b_userId body = None →
     getWorkouts (updateWorkout progresses store (Some u) id body).2 (Some v) =
       getWorkouts store (Some v)) ∧
  (∀ e (store : list progress) weight date,
     getProgress (addProgress e store (Some u) weight date).2 (Some v) =
       getProgress store (Some v)) ∧
  (∀ (store : list progress) id,
     NoDup (p_id <$> store) →
     getProgress (deleteProgress store (Some u) id).2 (Some v) = getProgress store (Some v)) ∧
  (∀ e e' (store : list nutrition) body date,
     getNutrition e' (addNutrition e store (Some u) body).2 (Some v) date =
       getNutrition e' store (Some v) date) ∧
  (∀ e' (store : list nutrition) id,
     NoDup (n_id <$> store) →
     getNutrition e' (deleteNutrition store (Some u) id).2 (Some v) None =
       getNutrition e' store (Some v) None).
Proof.
  intros Huv. split; [| split; [| split; [| split; [| split; [| split]]]]].
  - intros show e progresses store body.
    pose proof (setWorkout_created show e progresses store (Some u) body) as Hcreated.
    cbv zeta in Hcreated.
    destruct Hcreated as [[_ ->] |
      (u' & type & fw & fc & [= <-] & _ & _ & _ & _ & _ & ->)]; [done |].
    unfold getWorkouts, findByUser. cbn [snd]. by rewrite (filter_user_snoc w_userId).
  - intros store id Hids. unfold deleteWorkout.
    destruct (findById w_id id store) as [w |] eqn:Hfind; [| done].
    case_bool_decide as Hu; cbn [negb snd]; [| done].
    unfold getWorkouts, findByUser.
    rewrite (filter_user_delete w_id w_userId v id store w) by congruence. done.
  - intros progresses store id body Hids Hbody.
    destruct (updateWorkout_changes progresses store u id body)
      as [-> | (w & updateData & Hfind & Hu & Hsame & ->)]; [done |].
    unfold getWorkouts, findByUser.
    rewrite (filter_user_update v id updateData store w) by congruence. done.
  - intros e store weight date.
    pose proof (addProgress_created e store (Some u) weight date) as Hcreated.
    cbv zeta in Hcreated.
    destruct Hcreated as [[_ ->] | (u' & [= <-] & _ & _ & ->)]; [done |].
    unfold getProgress, findByUser. cbn [snd]. by rewrite (filter_user_snoc p_userId).
  - intros store id Hids. unfold deleteProgress.
    destruct (findById p_id id store) as [p |] eqn:Hfind; [| done].
    case_bool_decide as Hu; cbn [negb snd]; [| done].
    unfold getProgress, findByUser.
    rewrite (filter_user_delete p_id p_userId v id store p) by congruence. done.
  - intros e e' store body date.
    pose proof (addNutrition_created e store (Some u) body) as Hcreated.
    cbv zeta in Hcreated.
    destruct Hcreated as [[_ ->] | (u' & food & [= <-] & _ & _ & _ & _ & ->)]; [done |].
    unfold getNutrition. cbn [snd]. destruct date as [startDate |].
    + unfold ofDay. cbv zeta. rewrite List.filter_app. cbn [List.filter n_userId].
      rewrite bool_decide_eq_false_2 by done. cbn [andb]. by rewrite app_nil_r.
    + by rewrite (filter_user_snoc n_userId).
  - intros e' store id Hids. unfold deleteNutrition.
    destruct (findById n_id id store) as [n |] eqn:Hfind; [| done].
    case_bool_decide as Hu; cbn [negb snd]; [| done].
    unfold getNutrition.
    rewrite (filter_user_delete n_id n_userId v id store n) by congruence. done.
Qed.

Lemma other_users_unaffected_witness :
  getWorkouts (deleteWorkout Examples.workouts (Some Examples.alice)
                 "65531f00a1b2c3d4e5f6000a").2 (Some Examples.bob) =
    getWorkouts Examples.workouts (Some Examples.bob).
Proof.
  refine (proj1 (proj2 (other_users_unaffected Examples.alice Examples.bob _))
            Examples.workouts "65531f00a1b2c3d4e5f6000a"%string _).
  - discriminate.
  - apply NoDup_singleton.
Defined.

(** A body that names another user hands the workout over. *)
Example workout_handed_over :
  let body := {| b_type := None; b_duration := VUndefined; b_weight := VUndefined;
                 b_calories := VUndefined; b_date := None;
                 b_userId := Some Examples.bob |} in
  getWorkouts Examples.workouts (Some Examples.bob) = Response 200 (JArr []) ∧
  getWorkouts (updateWorkout Examples.weights Examples.workouts (Some Examples.alice)
                 "65531f00a1b2c3d4e5f6000a" body).2 (Some Examples.bob) ≠
    Response 200 (JArr []).
Proof. split; [reflexivity | discriminate]. Qed.

End OtherUsers.

(** ** An entry added from the frontend, in today's summary *)

Section TodaySummary.

Lemma entries_dailySummary (e : env) (store : list nutrition) (userId : string) (date : Z) :
  s_entries (dailySummary e store userId date) = length (ofDay e userId date store).
Proof.
  unfold dailySummary.
  assert (Hcount : ∀ l totals,
            s_entries (foldl addEntry totals l) = (s_entries totals + length l)%nat).
  { induction l as [| n l IH]; intros totals; cbn [foldl length]; [lia |].
    rewrite IH. cbn [addEntry s_entries]. lia. }
  by rewrite Hcount.
Qed.

Lemma endOfDay_ge (e : env) (t : Z) : t ≤ endOfDay e t.
Proof.
  unfold endOfDay, startOfDay, msPerDay.
  pose proof (Z.mod_pos_bound (t + tzOffset e) 86400000 ltac:(lia)). lia.
Qed.

(** X25. An entry the frontend posts without a date is found again under
    the date the frontend asks today's summary for: [nutritionAPI.addNutrition]
    dates it at the UTC midnight of the current UTC day, which is the
    instant both [getDailySummary] and [getNutrition] start their window
    at when asked for that day, so once the server has answered 201 the
    entry is listed and counted, whatever the server's time zone. *)
Theorem client_entry_in_summary (now : Z) (e e' : env) (store : list nutrition)
    (userId : string) (entry cleaned : nutritionBody) :
  Client.addNutrition now entry = inr cleaned →
  nb_date entry = None →
  status (addNutrition e store (Some userId) cleaned).1 = 201%nat →
  let store' := (addNutrition e store (Some userId) cleaned).2 in
  let today := Client.todayString now in
  ∃ doc : nutrition,
    store' = store ++ [doc] ∧ n_id doc = nextId e ∧ n_date doc = today ∧
    doc ∈ ofDay e' userId today store' ∧
    (1 ≤ s_entries (dailySummary e' store' userId today))%nat ∧
    ∃ listed, getNutrition e' store' (Some userId) (Some today) =
                Response 200 (JArr (nutrition_toJSON <$> listed)) ∧
              doc ∈ listed.
Proof.
  intros Hcleaned Hdate Hstatus store' today. subst store'.
  assert (Hposted : nb_date cleaned = Some today).
  { unfold Client.addNutrition in Hcleaned.
    destruct (Client.noFood _); [done |]. destruct (Client.noCalories _); [done |].
    injection Hcleaned as <-. cbn [nb_date]. by rewrite Hdate. }
  pose proof (addNutrition_created e store (Some userId) cleaned) as Hcreated.
  cbv zeta in Hcreated.
  destruct Hcreated as [[Hno _] | (u & food & [= <-] & _ & _ & _ & _ & Hresult)]; [done |].
  rewrite Hresult, Hposted. cbn [snd default].
  set (doc := {| n_id := nextId e; n_userId := userId; n_food := trim food;
                 n_calories := ToNumber (nb_calories cleaned);
                 n_protein := validatedMacro (nb_protein cleaned);
                 n_carbs := validatedMacro (nb_carbs cleaned);
                 n_fat := validatedMacro (nb_fat cleaned); n_date := today |}).
  assert (Hin : doc ∈ ofDay e' userId today (store ++ [doc])).
  { apply elem_of_ofDay. split; [apply elem_of_app; right; apply list_elem_of_here |].
    split; [done |]. split; [done |]. apply endOfDay_ge. }
  assert (Hcount : (1 ≤ length (ofDay e' userId today (store ++ [doc])))%nat).
  { destruct (ofDay e' userId today (store ++ [doc])); [by apply elem_of_nil in Hin |].
    cbn. lia. }
  exists doc. do 4 (split; [done |]). split.
  - rewrite entries_dailySummary. exact Hcount.
  - eexists. split; [reflexivity |]. by rewrite sortByDateDesc_perm.
Qed.

Lemma client_entry_in_summary_witness :
  let cleaned := {| nb_food := Some "boiled egg"%string; nb_calories := VNum (num 78);
                    nb_date := Some 1699920000000;
                    nb_protein := VNum (num (-6)); nb_carbs := VNum (num 0);
                    nb_fat := VNum (num 0) |} in
  let store' := (addNutrition Examples.server Examples.meals (Some Examples.alice)
                   cleaned).2 in
  let today := Client.todayString (Date.now Examples.server) in
  ∃ doc : nutrition,
    store' = Examples.meals ++ [doc] ∧ n_id doc = nextId Examples.server ∧
    n_date doc = today ∧
    doc ∈ ofDay Examples.server Examples.alice today store' ∧
    (1 ≤ s_entries (dailySummary Examples.server store' Examples.alice today))%nat ∧
    ∃ listed, getNutrition Examples.server store' (Some Examples.alice) (Some today) =
                Response 200 (JArr (nutrition_toJSON <$> listed)) ∧
              doc ∈ listed.
Proof.
  apply (client_entry_in_summary (Date.now Examples.server) Examples.server Examples.server
           Examples.meals Examples.alice Examples.snack).
  - reflexivity.
  - reflexivity.
  - reflexivity.
Defined.

End TodaySummary.
